(** * MecanumRobot: the control orchestrator of the four-wheel mecanum rover

    A shallow embedding of
    [roverrobotics_driver/library/librover/src/mecanum_robot.cpp].

    Conventions of the embedding.
    - A [float] or [double] quantity is the rational it denotes ([Q]).
      Comparisons of the source ([<], [<=], [==]) are the boolean tests
      [Qltb], [Qle_bool], [Qeq_bool].  Where the numeric outcome of an
      addition or subtraction matters (the trim manager), the operation is the
      exact one followed by rounding to binary64, [binary64]; where values are
      only copied, compared or handed on, no rounding appears.
    - [uint8_t] motor identifiers and millisecond tick counts are integers
      ([Z]); the one place where a [uint8_t] is incremented writes the
      wrap-around out.
    - The class is a record; every member function is a function from the
      object (and its arguments) to the new object.  A tick of each of the two
      worker loops is the body of its [while (true)].
    - [mecanum_robot.hpp] and the collaborators (motion controller, VESC codec,
      CAN transport, parameter file) are not part of this translation unit:
      constants of the header are fields of [Header], collaborators are
      interfaces ([Class]es) the development is parametric in. *)

From Stdlib Require Import ZArith QArith Lia Lqa List.
From Stdlib Require Import SpecFloat.
From Stdlib Require Strings.Byte.
From stdpp Require Import base functions gmap strings list.

Local Open Scope Z_scope.

(** ** Arithmetic of the embedding *)

(** [x < y] on numbers, as a test. *)
Definition Qltb (x y : Q) : bool := negb (Qle_bool y x).

(** *** Rounding to [double]

    A finite [double] is an integer multiple [m * 2^e] of [2^-1074], with
    [0 <= e] (in units of [2^-1074]) and a mantissa of at most 53 bits.
    NaN and the infinities are not values of the model: a sum that would
    overflow rounds to a value beyond every bound of the code, as the
    infinity is. *)

(** The integer nearest to [p / q] (for [0 < q]), ties to even. *)
Definition round_half_even (p q : Z) : Z :=
  let f := p / q in
  match 2 * (p mod q) ?= q with
  | Lt => f
  | Gt => f + 1
  | Eq => if Z.even f then f else f + 1
  end.

(** The exponent, in units of [2^-1074], of the binade of [P / q]: 0 for the
    subnormal numbers and the first binade of the normal ones. *)
Definition binary64_exponent (P q : Z) : Z := Z.max 0 (Z.log2 (Z.abs P / q) - 52).

Definition binary64_mantissa (P q : Z) : Z :=
  round_half_even P (q * 2 ^ binary64_exponent P q).

Definition binary64_of_reduced (x : Q) : Q :=
  let P := Qnum x * 2 ^ 1074 in
  let q := Zpos (Qden x) in
  Qred (Qmake (binary64_mantissa P q * 2 ^ binary64_exponent P q) (2 ^ 1074)%positive).

(** [binary64 x]: the [double] nearest to [x], ties to even; a decimal
    literal [0.45] of the source is [binary64 0.45]. *)
Definition binary64 (x : Q) : Q := binary64_of_reduced (Qred x).

(** The rational a finite value of the reference specification of binary
    floating point ([SpecFloat]) denotes. *)
Definition spec_float_value (f : spec_float) : Q :=
  match f with
  | S754_finite s m e =>
      let v :=
        if 0 <=? e then inject_Z (Zpos m * 2 ^ e)
        else Qmake (Zpos m) (2 ^ Z.to_pos (- e))%positive in
      Qred (if s then - v else v)
  | _ => 0
  end.

(** The [double] of a decimal fraction [a / b], as the reference
    specification computes it. *)
Definition spec_double (a b : Z) : spec_float :=
  SFdiv 53 1024 (binary_normalize 53 1024 a 0 false) (binary_normalize 53 1024 b 0 false).

(** [std::numeric_limits<float>::max()]. *)
Definition FLT_MAX : Q := inject_Z ((2 ^ 24 - 1) * 2 ^ 104).

(** [vid++] on a [uint8_t]. *)
Definition uint8_succ (v : Z) : Z := (v + 1) mod 256.

(** ** [namespace Control]: what the orchestrator exchanges with the motion
    controller *)
Module Control.

Record robot_velocities := {
  linear_velocity : Q;
  trans_velocity : Q;
  angular_velocity : Q }.

Record motor_data := { fl : Q; fr : Q; rl : Q; rr : Q }.

Record robot_geometry := {
  intra_axle_distance : Q;
  wheel_base : Q;
  wheel_radius : Q;
  center_of_mass_x_offset : Q;
  center_of_mass_y_offset : Q }.

Inductive robot_motion_mode_t := OPEN_LOOP | TRACTION_CONTROL | INDEPENDENT_WHEEL.

(** [{linear jerk limit, angular limit}] of [setAccelerationLimits]. *)
Record limits := { linear_limit : Q; angular_limit : Q }.

(** The motion controller ([Control::MecanumMotionController]) is a stateful
    collaborator: each call returns its result and the controller after the
    call.  Its code is not part of this translation unit. *)
Class MecanumMotionController := {
  (* the parameter structs of the controller's header *)
  pid_gains : Type;
  angular_scaling_params : Type;
  controller : Type;
  make_controller :
    robot_motion_mode_t -> robot_geometry -> pid_gains ->
    Q -> Q -> Q -> Q -> Q -> controller;
  setTrim : controller -> Q -> Q -> controller;
  setOperatingMode : controller -> robot_motion_mode_t -> controller;
  setAccelerationLimits : controller -> limits -> controller;
  runMotionControl :
    controller -> robot_velocities -> motor_data -> motor_data ->
    motor_data * controller;
  getMeasuredVelocities :
    controller -> motor_data -> robot_velocities * controller }.

End Control.

(** ** [namespace vesc]: the codec of the motor controllers *)
Module vesc.

Inductive vescPacketFlags := CURRENT | DUTY.

Record vescChannelCommand := {
  cmd_vescId : Z;
  commandType : vescPacketFlags;
  commandValue : Q }.

Record vescChannelStatus := {
  vescId : Z;
  current : Q;
  rpm : Q;
  dataValid : bool }.

(** [vesc::BridgedVescArray]: built from the list of identifiers, it decodes
    inbound frames and encodes commands. *)
Class BridgedVescArray := {
  array : Type;
  make_array : list Z -> array;
  parseReceivedMessage : array -> list Byte.byte -> vescChannelStatus;
  buildCommandMessage : array -> vescChannelCommand -> list Byte.byte }.

End vesc.

(** ** The transport ([CommBase], here always a [CommCan]) *)

(** Constructing a [CommCan] either throws an [int] ([inl]) or yields the
    connection ([inr]). *)
Class CommBase := {
  comm : Type;
  CommCan : string -> list Byte.byte -> Z + comm;
  is_connected_dev : comm -> bool;
  write_to_device : comm -> list Byte.byte -> comm }.

(** ** The persistent parameter file *)
Module Utilities.

(** Modelled from the spec: [Utilities::PersistentParams] (its source is not
    in this translation unit) is a durable key/value store of scalars:
    [read(key)] yields the value last written under [key], if any. *)
Definition PersistentParams := gmap string Q.

(** Modelled from the spec: [read(key) -> optional value]. *)
Definition read_param (p : gmap string Q) (key : string) : option Q := p !! key.

(** Modelled from the spec: [write(key, value)] replaces what is stored under
    [key] and nothing else. *)
Definition write_param (p : gmap string Q) (key : string) (v : Q) : gmap string Q :=
  <[key := v]> p.

End Utilities.

(** ** Constants of [mecanum_robot.hpp] *)

(** The header is not part of the translation unit; its constants are taken as
    they are named in the source. *)
Record Header := {
  MOTOR_NEUTRAL_ : Q;
  MOTOR_MAX_ : Q;
  MOTOR_MIN_ : Q;
  geometric_decay_ : Q;
  LINEAR_JERK_LIMIT_ : Q;
  MAX_CURVATURE_CORRECTION_ : Q;
  CONTROL_LOOP_TIMEOUT_MS_ : Z;
  (* enum VESC_IDS *)
  FRONT_LEFT : Z;
  FRONT_RIGHT : Z;
  BACK_LEFT : Z;
  BACK_RIGHT : Z }.

(** The [case] labels of one [switch] are pairwise different (the program
    would not compile otherwise). *)
Definition ids_distinct (h : Header) : Prop :=
  FRONT_LEFT h <> FRONT_RIGHT h /\ FRONT_LEFT h <> BACK_LEFT h /\
  FRONT_LEFT h <> BACK_RIGHT h /\ FRONT_RIGHT h <> BACK_LEFT h /\
  FRONT_RIGHT h <> BACK_RIGHT h /\ BACK_LEFT h <> BACK_RIGHT h.

(** The four enumerators follow each other, and fit a [uint8_t] loop counter
    that has to step past the last of them. *)
Definition ids_consecutive (h : Header) : Prop :=
  0 <= FRONT_LEFT h /\
  FRONT_RIGHT h = FRONT_LEFT h + 1 /\
  BACK_LEFT h = FRONT_LEFT h + 2 /\
  BACK_RIGHT h = FRONT_LEFT h + 3 /\
  BACK_RIGHT h < 255.

(** ** [robotData]: the status record shared by the loops *)
Record robotData := {
  motor1_id : Z; motor1_rpm : Q; motor1_current : Q;
  motor2_id : Z; motor2_rpm : Q; motor2_current : Q;
  motor3_id : Z; motor3_rpm : Q; motor3_current : Q;
  motor4_id : Z; motor4_rpm : Q; motor4_current : Q;
  linear_vel : Q; trans_vel : Q; angular_vel : Q;
  cmd_linear_vel : Q; cmd_angular_vel : Q; cmd_trans_vel : Q;
  cmd_ts : Z }.

(** [robotstatus_ = {0}]. *)
Definition robotData_zero : robotData :=
  {| motor1_id := 0; motor1_rpm := 0; motor1_current := 0;
     motor2_id := 0; motor2_rpm := 0; motor2_current := 0;
     motor3_id := 0; motor3_rpm := 0; motor3_current := 0;
     motor4_id := 0; motor4_rpm := 0; motor4_current := 0;
     linear_vel := 0; trans_vel := 0; angular_vel := 0;
     cmd_linear_vel := 0; cmd_angular_vel := 0; cmd_trans_vel := 0;
     cmd_ts := 0 |}.

(** Assignments to groups of fields of [robotstatus_]. *)
Definition set_motor1 (rpm : Q) (id : Z) (cur : Q) (d : robotData) : robotData :=
  {| motor1_id := id; motor1_rpm := rpm; motor1_current := cur;
     motor2_id := motor2_id d; motor2_rpm := motor2_rpm d; motor2_current := motor2_current d;
     motor3_id := motor3_id d; motor3_rpm := motor3_rpm d; motor3_current := motor3_current d;
     motor4_id := motor4_id d; motor4_rpm := motor4_rpm d; motor4_current := motor4_current d;
     linear_vel := linear_vel d; trans_vel := trans_vel d; angular_vel := angular_vel d;
     cmd_linear_vel := cmd_linear_vel d; cmd_angular_vel := cmd_angular_vel d;
     cmd_trans_vel := cmd_trans_vel d; cmd_ts := cmd_ts d |}.

Definition set_motor2 (rpm : Q) (id : Z) (cur : Q) (d : robotData) : robotData :=
  {| motor1_id := motor1_id d; motor1_rpm := motor1_rpm d; motor1_current := motor1_current d;
     motor2_id := id; motor2_rpm := rpm; motor2_current := cur;
     motor3_id := motor3_id d; motor3_rpm := motor3_rpm d; motor3_current := motor3_current d;
     motor4_id := motor4_id d; motor4_rpm := motor4_rpm d; motor4_current := motor4_current d;
     linear_vel := linear_vel d; trans_vel := trans_vel d; angular_vel := angular_vel d;
     cmd_linear_vel := cmd_linear_vel d; cmd_angular_vel := cmd_angular_vel d;
     cmd_trans_vel := cmd_trans_vel d; cmd_ts := cmd_ts d |}.

Definition set_motor3 (rpm : Q) (id : Z) (cur : Q) (d : robotData) : robotData :=
  {| motor1_id := motor1_id d; motor1_rpm := motor1_rpm d; motor1_current := motor1_current d;
     motor2_id := motor2_id d; motor2_rpm := motor2_rpm d; motor2_current := motor2_current d;
     motor3_id := id; motor3_rpm := rpm; motor3_current := cur;
     motor4_id := motor4_id d; motor4_rpm := motor4_rpm d; motor4_current := motor4_current d;
     linear_vel := linear_vel d; trans_vel := trans_vel d; angular_vel := angular_vel d;
     cmd_linear_vel := cmd_linear_vel d; cmd_angular_vel := cmd_angular_vel d;
     cmd_trans_vel := cmd_trans_vel d; cmd_ts := cmd_ts d |}.

Definition set_motor4 (rpm : Q) (id : Z) (cur : Q) (d : robotData) : robotData :=
  {| motor1_id := motor1_id d; motor1_rpm := motor1_rpm d; motor1_current := motor1_current d;
     motor2_id := motor2_id d; motor2_rpm := motor2_rpm d; motor2_current := motor2_current d;
     motor3_id := motor3_id d; motor3_rpm := motor3_rpm d; motor3_current := motor3_current d;
     motor4_id := id; motor4_rpm := rpm; motor4_current := cur;
     linear_vel := linear_vel d; trans_vel := trans_vel d; angular_vel := angular_vel d;
     cmd_linear_vel := cmd_linear_vel d; cmd_angular_vel := cmd_angular_vel d;
     cmd_trans_vel := cmd_trans_vel d; cmd_ts := cmd_ts d |}.

(** [linear_vel], [trans_vel], [angular_vel] := the estimate. *)
Definition set_measured (v : Control.robot_velocities) (d : robotData) : robotData :=
  {| motor1_id := motor1_id d; motor1_rpm := motor1_rpm d; motor1_current := motor1_current d;
     motor2_id := motor2_id d; motor2_rpm := motor2_rpm d; motor2_current := motor2_current d;
     motor3_id := motor3_id d; motor3_rpm := motor3_rpm d; motor3_current := motor3_current d;
     motor4_id := motor4_id d; motor4_rpm := motor4_rpm d; motor4_current := motor4_current d;
     linear_vel := Control.linear_velocity v;
     trans_vel := Control.trans_velocity v;
     angular_vel := Control.angular_velocity v;
     cmd_linear_vel := cmd_linear_vel d; cmd_angular_vel := cmd_angular_vel d;
     cmd_trans_vel := cmd_trans_vel d; cmd_ts := cmd_ts d |}.

(** The four [cmd_*] fields. *)
Definition set_cmd (lin ang trans : Q) (ts : Z) (d : robotData) : robotData :=
  {| motor1_id := motor1_id d; motor1_rpm := motor1_rpm d; motor1_current := motor1_current d;
     motor2_id := motor2_id d; motor2_rpm := motor2_rpm d; motor2_current := motor2_current d;
     motor3_id := motor3_id d; motor3_rpm := motor3_rpm d; motor3_current := motor3_current d;
     motor4_id := motor4_id d; motor4_rpm := motor4_rpm d; motor4_current := motor4_current d;
     linear_vel := linear_vel d; trans_vel := trans_vel d; angular_vel := angular_vel d;
     cmd_linear_vel := lin; cmd_angular_vel := ang; cmd_trans_vel := trans;
     cmd_ts := ts |}.

(** ** The class [MecanumRobot] *)
Section Model.

Context (h : Header).
Context `{MC : Control.MecanumMotionController}.
Context `{VA : vesc.BridgedVescArray}.
Context `{CB : CommBase}.

(** The data members the translation unit reads or writes.  [motors_speeds_]
    is the array of setpoints, indexed by motor identifier; [comm_base_] is
    [None] while the pointer is null. *)
Record MecanumRobot := {
  persistent_params_ : gmap string Q;
  comm_type_ : string;
  robotstatus_ : robotData;
  angular_scaling_params_ : Control.angular_scaling_params;
  robot_geometry_ : Control.robot_geometry;
  estop_ : bool;
  motors_speeds_ : Z -> Q;
  vescArray_ : vesc.array;
  pid_ : Control.pid_gains;
  mecanum_control__ : Control.controller;
  comm_base_ : option comm;
  trimvalue_ : Q;
  left_trim_ : Q;
  right_trim_ : Q }.

(** Assignments to single members. *)
Definition set_persistent_params (p : gmap string Q) (r : MecanumRobot) : MecanumRobot :=
  {| persistent_params_ := p; comm_type_ := comm_type_ r;
     robotstatus_ := robotstatus_ r;
     angular_scaling_params_ := angular_scaling_params_ r;
     robot_geometry_ := robot_geometry_ r; estop_ := estop_ r;
     motors_speeds_ := motors_speeds_ r; vescArray_ := vescArray_ r;
     pid_ := pid_ r; mecanum_control__ := mecanum_control__ r;
     comm_base_ := comm_base_ r; trimvalue_ := trimvalue_ r;
     left_trim_ := left_trim_ r; right_trim_ := right_trim_ r |}.

Definition set_robotstatus (d : robotData) (r : MecanumRobot) : MecanumRobot :=
  {| persistent_params_ := persistent_params_ r; comm_type_ := comm_type_ r;
     robotstatus_ := d;
     angular_scaling_params_ := angular_scaling_params_ r;
     robot_geometry_ := robot_geometry_ r; estop_ := estop_ r;
     motors_speeds_ := motors_speeds_ r; vescArray_ := vescArray_ r;
     pid_ := pid_ r; mecanum_control__ := mecanum_control__ r;
     comm_base_ := comm_base_ r; trimvalue_ := trimvalue_ r;
     left_trim_ := left_trim_ r; right_trim_ := right_trim_ r |}.

Definition set_estop (b : bool) (r : MecanumRobot) : MecanumRobot :=
  {| persistent_params_ := persistent_params_ r; comm_type_ := comm_type_ r;
     robotstatus_ := robotstatus_ r;
     angular_scaling_params_ := angular_scaling_params_ r;
     robot_geometry_ := robot_geometry_ r; estop_ := b;
     motors_speeds_ := motors_speeds_ r; vescArray_ := vescArray_ r;
     pid_ := pid_ r; mecanum_control__ := mecanum_control__ r;
     comm_base_ := comm_base_ r; trimvalue_ := trimvalue_ r;
     left_trim_ := left_trim_ r; right_trim_ := right_trim_ r |}.

Definition set_motors_speeds (m : Z -> Q) (r : MecanumRobot) : MecanumRobot :=
  {| persistent_params_ := persistent_params_ r; comm_type_ := comm_type_ r;
     robotstatus_ := robotstatus_ r;
     angular_scaling_params_ := angular_scaling_params_ r;
     robot_geometry_ := robot_geometry_ r; estop_ := estop_ r;
     motors_speeds_ := m; vescArray_ := vescArray_ r;
     pid_ := pid_ r; mecanum_control__ := mecanum_control__ r;
     comm_base_ := comm_base_ r; trimvalue_ := trimvalue_ r;
     left_trim_ := left_trim_ r; right_trim_ := right_trim_ r |}.

Definition set_mecanum_control (c : Control.controller) (r : MecanumRobot) : MecanumRobot :=
  {| persistent_params_ := persistent_params_ r; comm_type_ := comm_type_ r;
     robotstatus_ := robotstatus_ r;
     angular_scaling_params_ := angular_scaling_params_ r;
     robot_geometry_ := robot_geometry_ r; estop_ := estop_ r;
     motors_speeds_ := motors_speeds_ r; vescArray_ := vescArray_ r;
     pid_ := pid_ r; mecanum_control__ := c;
     comm_base_ := comm_base_ r; trimvalue_ := trimvalue_ r;
     left_trim_ := left_trim_ r; right_trim_ := right_trim_ r |}.

Definition set_comm_base (c : option comm) (r : MecanumRobot) : MecanumRobot :=
  {| persistent_params_ := persistent_params_ r; comm_type_ := comm_type_ r;
     robotstatus_ := robotstatus_ r;
     angular_scaling_params_ := angular_scaling_params_ r;
     robot_geometry_ := robot_geometry_ r; estop_ := estop_ r;
     motors_speeds_ := motors_speeds_ r; vescArray_ := vescArray_ r;
     pid_ := pid_ r; mecanum_control__ := mecanum_control__ r;
     comm_base_ := c; trimvalue_ := trimvalue_ r;
     left_trim_ := left_trim_ r; right_trim_ := right_trim_ r |}.

Definition set_trimvalue (t : Q) (r : MecanumRobot) : MecanumRobot :=
  {| persistent_params_ := persistent_params_ r; comm_type_ := comm_type_ r;
     robotstatus_ := robotstatus_ r;
     angular_scaling_params_ := angular_scaling_params_ r;
     robot_geometry_ := robot_geometry_ r; estop_ := estop_ r;
     motors_speeds_ := motors_speeds_ r; vescArray_ := vescArray_ r;
     pid_ := pid_ r; mecanum_control__ := mecanum_control__ r;
     comm_base_ := comm_base_ r; trimvalue_ := t;
     left_trim_ := left_trim_ r; right_trim_ := right_trim_ r |}.

Definition set_left_trim (l : Q) (r : MecanumRobot) : MecanumRobot :=
  {| persistent_params_ := persistent_params_ r; comm_type_ := comm_type_ r;
     robotstatus_ := robotstatus_ r;
     angular_scaling_params_ := angular_scaling_params_ r;
     robot_geometry_ := robot_geometry_ r; estop_ := estop_ r;
     motors_speeds_ := motors_speeds_ r; vescArray_ := vescArray_ r;
     pid_ := pid_ r; mecanum_control__ := mecanum_control__ r;
     comm_base_ := comm_base_ r; trimvalue_ := trimvalue_ r;
     left_trim_ := l; right_trim_ := right_trim_ r |}.

Definition set_right_trim (x : Q) (r : MecanumRobot) : MecanumRobot :=
  {| persistent_params_ := persistent_params_ r; comm_type_ := comm_type_ r;
     robotstatus_ := robotstatus_ r;
     angular_scaling_params_ := angular_scaling_params_ r;
     robot_geometry_ := robot_geometry_ r; estop_ := estop_ r;
     motors_speeds_ := motors_speeds_ r; vescArray_ := vescArray_ r;
     pid_ := pid_ r; mecanum_control__ := mecanum_control__ r;
     comm_base_ := comm_base_ r; trimvalue_ := trimvalue_ r;
     left_trim_ := left_trim_ r; right_trim_ := x |}.

(** [motors_speeds_[id] = v]. *)
Definition store_speed (id : Z) (v : Q) (r : MecanumRobot) : MecanumRobot :=
  set_motors_speeds (<[id := v]> (motors_speeds_ r)) r.

(** *** [update_drivetrim] (the spec's [adjust_trim]) *)
Definition update_drivetrim (delta : Q) (r : MecanumRobot) : MecanumRobot :=
  if Qltb (- MAX_CURVATURE_CORRECTION_ h) (trimvalue_ r + delta)
     && Qltb (trimvalue_ r + delta) (MAX_CURVATURE_CORRECTION_ h)
  then
    let r := set_trimvalue (trimvalue_ r + delta) r in
    let r :=
      if Qle_bool 0 (trimvalue_ r)
      then (* reduce power to right wheels *)
        let r := set_left_trim 1 r in
        set_right_trim (1 - trimvalue_ r) r
      else (* reduce power to left wheels *)
        let r := set_right_trim 1 r in
        set_left_trim (1 + trimvalue_ r) r in
    let r :=
      set_mecanum_control
        (Control.setTrim (mecanum_control__ r) (left_trim_ r) (right_trim_ r)) r in
    set_persistent_params
      (Utilities.write_param (persistent_params_ r) "trim" (trimvalue_ r)) r
  else r.

(** *** [update_drivetrim] in [double] arithmetic

    The parameter is a [double], and the trim members and the bound are taken
    to be doubles too (their declarations are in the missing header): the sum
    [trimvalue_ + delta] and the differences [1 - trimvalue_] and
    [1 + trimvalue_] are rounded to binary64.  [update_drivetrim] above is
    this function without the three roundings. *)
Definition update_drivetrim_binary64 (delta : Q) (r : MecanumRobot) : MecanumRobot :=
  if Qltb (- MAX_CURVATURE_CORRECTION_ h) (binary64 (trimvalue_ r + delta))
     && Qltb (binary64 (trimvalue_ r + delta)) (MAX_CURVATURE_CORRECTION_ h)
  then
    let r := set_trimvalue (binary64 (trimvalue_ r + delta)) r in
    let r :=
      if Qle_bool 0 (trimvalue_ r)
      then (* reduce power to right wheels *)
        let r := set_left_trim 1 r in
        set_right_trim (binary64 (1 - trimvalue_ r)) r
      else (* reduce power to left wheels *)
        let r := set_right_trim 1 r in
        set_left_trim (binary64 (1 + trimvalue_ r)) r in
    let r :=
      set_mecanum_control
        (Control.setTrim (mecanum_control__ r) (left_trim_ r) (right_trim_ r)) r in
    set_persistent_params
      (Utilities.write_param (persistent_params_ r) "trim" (trimvalue_ r)) r
  else r.

(** *** [load_persistent_params] *)
Definition load_persistent_params (r : MecanumRobot) : MecanumRobot :=
  match Utilities.read_param (persistent_params_ r) "trim" with
  | Some param => update_drivetrim param r
  | None => r
  end.

(** *** [send_estop] *)
Definition send_estop (estop : bool) (r : MecanumRobot) : MecanumRobot :=
  set_estop estop r.

(** *** [status_request], [info_request] *)
Definition status_request (r : MecanumRobot) : robotData := robotstatus_ r.

Definition info_request (r : MecanumRobot) : robotData := status_request r.

(** *** [set_robot_velocity]

    [control_array] points to the caller's array; the function reads its
    elements 0, 1 and 3.  Reading past the end of the array is undefined:
    [None].  [now] is the reading of the system clock, in milliseconds. *)
Definition set_robot_velocity (control_array : list Q) (now : Z) (r : MecanumRobot)
  : option MecanumRobot :=
  match control_array !! 0%nat, control_array !! 1%nat, control_array !! 3%nat with
  | Some c0, Some c1, Some c3 =>
      Some (set_robotstatus (set_cmd c0 c1 c3 now (robotstatus_ r)) r)
  | _, _, _ => None
  end.

(** *** [unpack_comm_response] *)
Definition unpack_comm_response (robotmsg : list Byte.byte) (r : MecanumRobot)
  : MecanumRobot :=
  let parsedMsg := vesc.parseReceivedMessage (vescArray_ r) robotmsg in
  if vesc.dataValid parsedMsg then
    let id := vesc.vescId parsedMsg in
    if id =? FRONT_LEFT h then
      set_robotstatus
        (set_motor1 (vesc.rpm parsedMsg) id (vesc.current parsedMsg) (robotstatus_ r)) r
    else if id =? FRONT_RIGHT h then
      set_robotstatus
        (set_motor2 (vesc.rpm parsedMsg) id (vesc.current parsedMsg) (robotstatus_ r)) r
    else if id =? BACK_LEFT h then
      set_robotstatus
        (set_motor3 (vesc.rpm parsedMsg) id (vesc.current parsedMsg) (robotstatus_ r)) r
    else if id =? BACK_RIGHT h then
      set_robotstatus
        (set_motor4 (vesc.rpm parsedMsg) id (vesc.current parsedMsg) (robotstatus_ r)) r
    else r
  else r.

(** *** [is_connected]: dereferences [comm_base_]; undefined ([None]) while
    it is null. *)
Definition is_connected (r : MecanumRobot) : option bool :=
  match comm_base_ r with
  | Some c => Some (is_connected_dev c)
  | None => None
  end.

(** *** [register_comm_base]

    [inl i] is [throw(i)].  The callback handed to the transport is
    [unpack_comm_response]; deliveries are calls of that function.  For the
    device name ["internal"] the construction of the SPI transport is
    commented out in the source and the branch is empty. *)
Definition register_comm_base (device : string) (r : MecanumRobot) : Z + MecanumRobot :=
  let setting : list Byte.byte := [] in
  if String.eqb (comm_type_ r) "CAN" then
    if negb (String.eqb device "internal") then
      match CommCan device setting with
      | inr c => inr (set_comm_base (Some c) r)
      | inl i => inl i
      end
    else inr r
  else inl (-2).

(** *** [cycle_robot_mode]: the returned [int] and the object after the
    call. *)
Definition cycle_robot_mode (r : MecanumRobot) : Z * MecanumRobot := (-1, r).

(** *** [send_command]: one pass of the [for] loop over the motors *)

(** [useCurrentControl] for the motor [vid]. *)
Definition useCurrentControl (vid : Z) (r : MecanumRobot) : bool :=
  Qeq_bool (motors_speeds_ r vid) (MOTOR_NEUTRAL_ h)
  && Qeq_bool (linear_vel (robotstatus_ r)) (MOTOR_NEUTRAL_ h)
  && Qeq_bool (trans_vel (robotstatus_ r)) (MOTOR_NEUTRAL_ h)
  && Qeq_bool (angular_vel (robotstatus_ r)) (MOTOR_NEUTRAL_ h).

(** The command handed to [buildCommandMessage] for the motor [vid]. *)
Definition channel_command (vid : Z) (r : MecanumRobot) : vesc.vescChannelCommand :=
  let signedMotorCommand := motors_speeds_ r vid in
  {| vesc.cmd_vescId := vid;
     vesc.commandType :=
       if useCurrentControl vid r then vesc.CURRENT else vesc.DUTY;
     vesc.commandValue :=
       if useCurrentControl vid r then MOTOR_NEUTRAL_ h else signedMotorCommand |}.

(** The frame written for the motor [vid]. *)
Definition frame_of (vid : Z) (r : MecanumRobot) : list Byte.byte :=
  vesc.buildCommandMessage (vescArray_ r) (channel_command vid r).

(** [for (uint8_t vid = FRONT_LEFT; vid <= BACK_RIGHT; vid++)], from the
    value [vid] of the counter.  [fuel] bounds the number of tests of the
    loop condition; [issued] collects, in order, the commands encoded so far.
    Writing through a null [comm_base_] is undefined ([None]). *)
Fixpoint send_command_for (fuel : nat) (vid : Z) (r : MecanumRobot)
    (issued : list vesc.vescChannelCommand)
  : option (MecanumRobot * list vesc.vescChannelCommand) :=
  match fuel with
  | O => None
  | S fuel' =>
      if vid <=? BACK_RIGHT h then
        let c := channel_command vid r in
        let msg := vesc.buildCommandMessage (vescArray_ r) c in
        match comm_base_ r with
        | Some dev =>
            send_command_for fuel' (uint8_succ vid)
              (set_comm_base (Some (write_to_device dev msg)) r)
              (issued ++ [c])
        | None => None
        end
      else Some (r, issued)
  end.

(** One tick of [send_command]: the counter starts from the enumerator
    converted to [uint8_t]; the [sleep_for] has no effect on the object. *)
Definition send_command_tick (fuel : nat) (r : MecanumRobot)
  : option (MecanumRobot * list vesc.vescChannelCommand) :=
  send_command_for fuel (FRONT_LEFT h mod 256) r [].

(** *** [motors_control_loop]: one tick, at clock reading [time_now]

    Clock readings are milliseconds since the epoch, far inside the range of
    the 64-bit count of [std::chrono::milliseconds]: their difference is the
    difference of integers.  [estop_] is read as it is at the tick. *)

Definition no_duty : Control.motor_data :=
  {| Control.fl := 0; Control.fr := 0; Control.rl := 0; Control.rr := 0 |}.

Definition zero_velocities : Control.robot_velocities :=
  {| Control.linear_velocity := 0; Control.trans_velocity := 0;
     Control.angular_velocity := 0 |}.

(** The snapshot taken under the first lock. *)
Definition commanded (r : MecanumRobot) : Control.robot_velocities :=
  {| Control.linear_velocity := cmd_linear_vel (robotstatus_ r);
     Control.trans_velocity := cmd_trans_vel (robotstatus_ r);
     Control.angular_velocity := cmd_angular_vel (robotstatus_ r) |}.

Definition measured_rpm (r : MecanumRobot) : Control.motor_data :=
  {| Control.fl := motor1_rpm (robotstatus_ r);
     Control.fr := motor2_rpm (robotstatus_ r);
     Control.rl := motor3_rpm (robotstatus_ r);
     Control.rr := motor4_rpm (robotstatus_ r) |}.

Definition motors_control_loop_tick (time_now : Z) (r : MecanumRobot) : MecanumRobot :=
  let targets := commanded r in
  let rpms := measured_rpm r in
  let time_from_msg := cmd_ts (robotstatus_ r) in
  if negb (estop_ r)
     && (time_now - time_from_msg <=? CONTROL_LOOP_TIMEOUT_MS_ h)
  then
    (* compute motion targets *)
    let run := Control.runMotionControl (mecanum_control__ r) targets no_duty rpms in
    let wheel_speeds := fst run in
    let est := Control.getMeasuredVelocities (snd run) rpms in
    let velocities := fst est in
    let r := set_mecanum_control (snd est) r in
    let r := store_speed (FRONT_LEFT h) (Control.fl wheel_speeds) r in
    let r := store_speed (FRONT_RIGHT h) (Control.fr wheel_speeds) r in
    let r := store_speed (BACK_LEFT h) (Control.rl wheel_speeds) r in
    let r := store_speed (BACK_RIGHT h) (Control.rr wheel_speeds) r in
    set_robotstatus (set_measured velocities (robotstatus_ r)) r
  else
    (* COMMAND THE ROBOT TO STOP *)
    let run := Control.runMotionControl (mecanum_control__ r) zero_velocities no_duty rpms in
    let est := Control.getMeasuredVelocities (snd run) rpms in
    let velocities := fst est in
    let r := set_mecanum_control (snd est) r in
    let r := store_speed (FRONT_LEFT h) (MOTOR_NEUTRAL_ h) r in
    let r := store_speed (FRONT_RIGHT h) (MOTOR_NEUTRAL_ h) r in
    let r := store_speed (BACK_LEFT h) (MOTOR_NEUTRAL_ h) r in
    let r := store_speed (BACK_RIGHT h) (MOTOR_NEUTRAL_ h) r in
    set_robotstatus (set_measured velocities (robotstatus_ r)) r.

(** *** The constructor *)

(** Modelled from the spec: the default member initialisers of the trim
    members are in [mecanum_robot.hpp], which is missing; the spec has the
    trim start at zero with no correction (both scales 1). *)
Definition trimvalue_default : Q := 0.

(** Modelled from the spec: the default left scale (header missing), no
    correction. *)
Definition left_trim_default : Q := 1.

(** Modelled from the spec: the default right scale (header missing), no
    correction. *)
Definition right_trim_default : Q := 1.

(** The members as the constructor body has set them when it calls
    [load_persistent_params]: [file] is the content of the parameter file at
    [ROBOT_PARAM_PATH] when the object is built, [slots] the indeterminate
    content of [motors_speeds_] before the constructor body runs. *)
Definition constructed_members (file : gmap string Q) (slots : Z -> Q)
    (wheel_radius wheel_base robot_length : Q)
    (pid : Control.pid_gains) (angular_scale : Control.angular_scaling_params)
  : MecanumRobot :=
  let geometry :=
    {| Control.intra_axle_distance := robot_length;
       Control.wheel_base := wheel_base;
       Control.wheel_radius := wheel_radius;
       Control.center_of_mass_x_offset := 0;
       Control.center_of_mass_y_offset := 0 |} in
  {| persistent_params_ := file;
     comm_type_ := "CAN";
     robotstatus_ := robotData_zero;
     angular_scaling_params_ := angular_scale;
     robot_geometry_ := geometry;
     estop_ := false;
     motors_speeds_ :=
       <[BACK_RIGHT h := MOTOR_NEUTRAL_ h]>
         (<[BACK_LEFT h := MOTOR_NEUTRAL_ h]>
            (<[FRONT_RIGHT h := MOTOR_NEUTRAL_ h]>
               (<[FRONT_LEFT h := MOTOR_NEUTRAL_ h]> slots)));
     vescArray_ :=
       vesc.make_array [FRONT_LEFT h; FRONT_RIGHT h; BACK_LEFT h; BACK_RIGHT h];
     pid_ := pid;
     mecanum_control__ :=
       Control.make_controller Control.INDEPENDENT_WHEEL geometry pid
         (MOTOR_MAX_ h) (MOTOR_MIN_ h) left_trim_default right_trim_default
         (geometric_decay_ h);
     comm_base_ := None;
     trimvalue_ := trimvalue_default;
     left_trim_ := left_trim_default;
     right_trim_ := right_trim_default |}.

(** [inl i] is an exception [i] leaving the constructor: no object exists
    then.  The two worker threads are started last, on the object returned. *)
Definition MecanumRobot_new (file : gmap string Q) (slots : Z -> Q)
    (device : string) (wheel_radius wheel_base robot_length : Q)
    (pid : Control.pid_gains) (angular_scale : Control.angular_scaling_params)
  : Z + MecanumRobot :=
  let r :=
    constructed_members file slots wheel_radius wheel_base robot_length
      pid angular_scale in
  (* MUST be done after skid control is constructed *)
  let r := load_persistent_params r in
  let r :=
    set_mecanum_control
      (Control.setOperatingMode (mecanum_control__ r) Control.INDEPENDENT_WHEEL) r in
  let r :=
    set_mecanum_control
      (Control.setAccelerationLimits (mecanum_control__ r)
         {| Control.linear_limit := LINEAR_JERK_LIMIT_ h;
            Control.angular_limit := FLT_MAX |}) r in
  register_comm_base device r.

(** *** Sequences of trim adjustments: the objects after each call. *)
Fixpoint adjust_trace (deltas : list Q) (r : MecanumRobot) : list MecanumRobot :=
  match deltas with
  | [] => []
  | d :: ds => let r' := update_drivetrim d r in r' :: adjust_trace ds r'
  end.

(** The same, in [double] arithmetic. *)
Fixpoint adjust_trace_binary64 (deltas : list Q) (r : MecanumRobot) : list MecanumRobot :=
  match deltas with
  | [] => []
  | d :: ds =>
      let r' := update_drivetrim_binary64 d r in r' :: adjust_trace_binary64 ds r'
  end.

(** *** The worker loops over several iterations *)

(** Successive iterations of the [while (true)] of [motors_control_loop], one
    for each clock reading of [times], in order. *)
Fixpoint motors_control_loop_ticks (times : list Z) (r : MecanumRobot) : MecanumRobot :=
  match times with
  | [] => r
  | time_now :: later =>
      motors_control_loop_ticks later (motors_control_loop_tick time_now r)
  end.

(** The command the tick hands to the controller: the stored one, or zero
    when the robot is stopped or the command is stale. *)
Definition effective_command (time_now : Z) (r : MecanumRobot) : Control.robot_velocities :=
  if negb (estop_ r)
     && (time_now - cmd_ts (robotstatus_ r) <=? CONTROL_LOOP_TIMEOUT_MS_ h)
  then commanded r
  else zero_velocities.

End Model.

(** ** Vocabulary of the properties *)
Section Vocabulary.

Context (h : Header).
Context `{MC : Control.MecanumMotionController}.
Context `{VA : vesc.BridgedVescArray}.
Context `{CB : CommBase}.

(** [t] lies strictly inside [(-MAX_CORRECTION, +MAX_CORRECTION)]. *)
Definition within_correction (t : Q) : Prop :=
  (- MAX_CURVATURE_CORRECTION_ h < t /\ t < MAX_CURVATURE_CORRECTION_ h)%Q.

(** The documented left/right formula of the scale factors, the difference
    and the sum being those of [double] arithmetic. *)
Definition side_formula_binary64 (r : MecanumRobot) : Prop :=
  ((0 <= trimvalue_ r)%Q ->
     left_trim_ r = 1%Q /\ right_trim_ r = binary64 (1 - trimvalue_ r)) /\
  ((trimvalue_ r < 0)%Q ->
     left_trim_ r = binary64 (1 + trimvalue_ r) /\ right_trim_ r = 1%Q).

(** Both scale factors are in [(0, 1]]. *)
Definition scales_in_range (r : MecanumRobot) : Prop :=
  (0 < left_trim_ r /\ left_trim_ r <= 1 /\
   0 < right_trim_ r /\ right_trim_ r <= 1)%Q.

(** One side is never attenuated: the left one for a trim that is not
    negative, the right one otherwise. *)
Definition one_side_full (r : MecanumRobot) : Prop :=
  ((0 <= trimvalue_ r)%Q -> left_trim_ r == 1) /\
  ((trimvalue_ r < 0)%Q -> right_trim_ r == 1).


(** The parameter store holds, under ["trim"], the trim of the object. *)
Definition trim_is_stored (r : MecanumRobot) : Prop :=
  persistent_params_ r !! "trim" = Some (trimvalue_ r).

(** The four setpoints are at neutral. *)
Definition setpoints_neutral (r : MecanumRobot) : Prop :=
  motors_speeds_ r (FRONT_LEFT h) = MOTOR_NEUTRAL_ h /\
  motors_speeds_ r (FRONT_RIGHT h) = MOTOR_NEUTRAL_ h /\
  motors_speeds_ r (BACK_LEFT h) = MOTOR_NEUTRAL_ h /\
  motors_speeds_ r (BACK_RIGHT h) = MOTOR_NEUTRAL_ h.

(** The four setpoints are the wheel speeds [w]. *)
Definition setpoints_are (w : Control.motor_data) (r : MecanumRobot) : Prop :=
  motors_speeds_ r (FRONT_LEFT h) = Control.fl w /\
  motors_speeds_ r (FRONT_RIGHT h) = Control.fr w /\
  motors_speeds_ r (BACK_LEFT h) = Control.rl w /\
  motors_speeds_ r (BACK_RIGHT h) = Control.rr w.

(** The motor identifier is one of the four of the robot. *)
Definition known_id (id : Z) : Prop :=
  id = FRONT_LEFT h \/ id = FRONT_RIGHT h \/ id = BACK_LEFT h \/ id = BACK_RIGHT h.

End Vocabulary.

(** ** A reference platform

    Concrete collaborators and constants on which the model runs: the values
    of the spec's scenarios for the header, and the simplest collaborators
    that fit the interfaces. *)
Module Reference.

(** Modelled from the spec: the values of the missing [mecanum_robot.hpp]
    are those of the spec's scenarios ([MAX_CORRECTION = 0.5], staleness
    threshold 1000 ms, neutral setpoint 0); the four identifiers are
    numbered from 1 in the order of the enumeration. *)
Definition header : Header :=
  {| MOTOR_NEUTRAL_ := 0;
     MOTOR_MAX_ := 0.97;
     MOTOR_MIN_ := 0.02;
     geometric_decay_ := 0.99;
     LINEAR_JERK_LIMIT_ := 5;
     MAX_CURVATURE_CORRECTION_ := 0.5;
     CONTROL_LOOP_TIMEOUT_MS_ := 1000;
     FRONT_LEFT := 1;
     FRONT_RIGHT := 2;
     BACK_LEFT := 3;
     BACK_RIGHT := 4 |}.

(** A controller that only remembers the trim scales and mixes the
    commanded velocities into the four wheels. *)
#[export] Instance mixer : Control.MecanumMotionController :=
  {| Control.pid_gains := unit;
     Control.angular_scaling_params := unit;
     Control.controller := Q * Q;
     Control.make_controller := fun _ _ _ _ _ l r _ => (l, r);
     Control.setTrim := fun _ l r => (l, r);
     Control.setOperatingMode := fun c _ => c;
     Control.setAccelerationLimits := fun c _ => c;
     Control.runMotionControl := fun c v _ _ =>
       let lin := Control.linear_velocity v in
       let tr := Control.trans_velocity v in
       let ang := Control.angular_velocity v in
       ({| Control.fl := (lin - tr - ang) * fst c;
           Control.fr := (lin + tr + ang) * snd c;
           Control.rl := (lin + tr - ang) * fst c;
           Control.rr := (lin - tr + ang) * snd c |}%Q, c);
     Control.getMeasuredVelocities := fun c m =>
       ({| Control.linear_velocity :=
             Control.fl m + Control.fr m + Control.rl m + Control.rr m;
           Control.trans_velocity :=
             Control.fr m + Control.rl m - Control.fl m - Control.rr m;
           Control.angular_velocity :=
             Control.fr m + Control.rr m - Control.fl m - Control.rl m |}%Q, c) |}.

Definition byte_val (b : Byte.byte) : Z := Z.of_N (Byte.to_N b).

Definition byte_of (z : Z) : Byte.byte :=
  match Byte.of_N (Z.to_N (z mod 256)) with
  | Some b => b
  | None => Byte.x00
  end.

(** A three-byte frame: identifier, speed, current; any other length is an
    invalid payload. *)
#[export] Instance frames : vesc.BridgedVescArray :=
  {| vesc.array := list Z;
     vesc.make_array := fun ids => ids;
     vesc.parseReceivedMessage := fun _ msg =>
       match msg with
       | [i; s; c] =>
           {| vesc.vescId := byte_val i;
              vesc.current := inject_Z (byte_val c);
              vesc.rpm := inject_Z (byte_val s);
              vesc.dataValid := true |}
       | _ =>
           {| vesc.vescId := 0; vesc.current := 0; vesc.rpm := 0;
              vesc.dataValid := false |}
       end;
     vesc.buildCommandMessage := fun _ c =>
       [byte_of (vesc.cmd_vescId c);
        match vesc.commandType c with
        | vesc.CURRENT => Byte.x01
        | vesc.DUTY => Byte.x00
        end] |}.

(** A bus that records what is written; opening the device with the empty
    name fails with -1. *)
#[export] Instance bus : CommBase :=
  {| comm := list (list Byte.byte);
     CommCan := fun device _ => if String.eqb device "" then inl (-1) else inr [];
     is_connected_dev := fun _ => true;
     write_to_device := fun log msg => log ++ [msg] |}.

(** The reference header with the four identifiers moved to the top of the
    [uint8_t] range. *)
Definition wide_header : Header :=
  {| MOTOR_NEUTRAL_ := 0;
     MOTOR_MAX_ := 0.97;
     MOTOR_MIN_ := 0.02;
     geometric_decay_ := 0.99;
     LINEAR_JERK_LIMIT_ := 5;
     MAX_CURVATURE_CORRECTION_ := 0.5;
     CONTROL_LOOP_TIMEOUT_MS_ := 1000;
     FRONT_LEFT := 252;
     FRONT_RIGHT := 253;
     BACK_LEFT := 254;
     BACK_RIGHT := 255 |}.

Definition geometry : Control.robot_geometry :=
  {| Control.intra_axle_distance := 0.3;
     Control.wheel_base := 0.4;
     Control.wheel_radius := 0.1;
     Control.center_of_mass_x_offset := 0;
     Control.center_of_mass_y_offset := 0 |}.

(** The object of a robot on the bus, at rest, with the given trim and
    status. *)
Definition robot (trim : Q) (status : robotData) (estop : bool) (speeds : Z -> Q)
  : MecanumRobot :=
  {| persistent_params_ := ∅;
     comm_type_ := "CAN";
     robotstatus_ := status;
     angular_scaling_params_ := tt;
     robot_geometry_ := geometry;
     estop_ := estop;
     motors_speeds_ := speeds;
     vescArray_ := [1; 2; 3; 4];
     pid_ := tt;
     mecanum_control__ := (1, 1)%Q;
     comm_base_ := Some [];
     trimvalue_ := trim;
     left_trim_ := 1;
     right_trim_ := (1 - trim)%Q |}.

(** A status with a command [(1, 0, 0)] issued at time 5000 and the wheels
    turning. *)
Definition moving : robotData :=
  set_cmd 1 0 0 5000 (set_motor1 7 1 2 (set_motor2 7 2 2 robotData_zero)).

End Reference.

(** ** Properties *)

(** *** Comparisons *)

Lemma Qltb_lt (x y : Q) : Qltb x y = true <-> (x < y)%Q.
Proof.
  unfold Qltb. rewrite negb_true_iff. split.
  - intros Hb. apply Qnot_le_lt. intros Hle.
    apply Qle_bool_iff in Hle. congruence.
  - intros Hlt. destruct (Qle_bool y x) eqn:E; [|reflexivity].
    apply Qle_bool_iff in E. exfalso. apply (Qlt_not_le _ _ Hlt E).
Qed.

Lemma Qltb_ge (x y : Q) : Qltb x y = false <-> (y <= x)%Q.
Proof.
  unfold Qltb. rewrite negb_false_iff. apply Qle_bool_iff.
Qed.

Lemma Qle_bool_gt (x y : Q) : Qle_bool x y = false <-> (y < x)%Q.
Proof.
  split.
  - intros Hb. apply Qnot_le_lt. intros Hle.
    apply Qle_bool_iff in Hle. congruence.
  - intros Hlt. destruct (Qle_bool x y) eqn:E; [|reflexivity].
    apply Qle_bool_iff in E. exfalso. apply (Qlt_not_le _ _ Hlt E).
Qed.

(** *** Rounding to [double] *)

Lemma round_half_even_le (p q n : Z) :
  0 < q -> p <= n * q -> round_half_even p q <= n.
Proof.
  intros Hq Hp. unfold round_half_even.
  pose proof (Z.div_mod p q ltac:(lia)) as Hdm.
  pose proof (Z.mod_pos_bound p q Hq) as Hm.
  assert (Hf : p / q <= n) by nia.
  destruct (Z.compare_spec (2 * (p mod q)) q) as [He|Hl|Hg].
  - assert (p / q < n) by nia. destruct (Z.even (p / q)); lia.
  - exact Hf.
  - assert (p / q < n) by nia. lia.
Qed.

Lemma round_half_even_ge (p q n : Z) :
  0 < q -> n * q <= p -> n <= round_half_even p q.
Proof.
  intros Hq Hp. unfold round_half_even.
  pose proof (Z.div_mod p q ltac:(lia)) as Hdm.
  pose proof (Z.mod_pos_bound p q Hq) as Hm.
  assert (Hf : n <= p / q) by nia.
  destruct (Z.compare_spec (2 * (p mod q)) q) as [He|Hl|Hg].
  - destruct (Z.even (p / q)); lia.
  - exact Hf.
  - lia.
Qed.

(** The exponent is not negative, and the mantissa has at most 53 bits. *)
Lemma binary64_exponent_nonneg (P q : Z) : 0 <= binary64_exponent P q.
Proof. unfold binary64_exponent. lia. Qed.

Lemma binary64_quotient_bound (P q : Z) :
  0 < q -> Z.abs P < 2 ^ (53 + binary64_exponent P q) * q.
Proof.
  intros Hq. unfold binary64_exponent.
  set (n := Z.abs P / q).
  assert (Hn : 0 <= n) by (apply Z.div_pos; lia).
  assert (Hlt : n < 2 ^ (53 + Z.max 0 (Z.log2 n - 52))).
  { destruct (Z.eq_dec n 0) as [->|Hne].
    - cbn. lia.
    - pose proof (Z.log2_spec n ltac:(lia)) as [_ Hup].
      eapply Z.lt_le_trans; [exact Hup|].
      apply Z.pow_le_mono_r; [lia|].
      pose proof (Z.log2_nonneg n). lia. }
  pose proof (Z.div_mod (Z.abs P) q ltac:(lia)) as Hdm.
  pose proof (Z.mod_pos_bound (Z.abs P) q Hq) as Hm.
  fold n in Hdm. nia.
Qed.

Lemma binary64_mantissa_bound (P q : Z) :
  0 < q -> - 2 ^ 53 <= binary64_mantissa P q <= 2 ^ 53.
Proof.
  intros Hq. unfold binary64_mantissa.
  pose proof (binary64_quotient_bound P q Hq) as Hb.
  pose proof (binary64_exponent_nonneg P q) as He.
  set (e := binary64_exponent P q) in *.
  rewrite Z.pow_add_r in Hb by lia.
  assert (H2e : 0 < 2 ^ e) by (apply Z.pow_pos_nonneg; lia).
  split.
  - apply round_half_even_ge; [nia|]. nia.
  - apply round_half_even_le; [nia|]. nia.
Qed.

Lemma binary64_value (x : Q) :
  binary64 x ==
  Qmake (binary64_mantissa (Qnum (Qred x) * 2 ^ 1074) (Zpos (Qden (Qred x)))
         * 2 ^ binary64_exponent (Qnum (Qred x) * 2 ^ 1074) (Zpos (Qden (Qred x))))
        (2 ^ 1074)%positive.
Proof. unfold binary64, binary64_of_reduced. apply Qred_correct. Qed.

Lemma pos_pow_1074 : Zpos (2 ^ 1074)%positive = 2 ^ 1074.
Proof. reflexivity. Qed.

Lemma binary64_le_1 (x : Q) : (x <= 1)%Q -> (binary64 x <= 1)%Q.
Proof.
  intros Hx. rewrite binary64_value.
  assert (Hy : (Qred x <= 1)%Q) by (rewrite Qred_correct; exact Hx).
  destruct (Qred x) as [p q]. unfold Qle in *. cbn [Qnum Qden] in *.
  rewrite pos_pow_1074.
  set (P := p * 2 ^ 1074). set (e := binary64_exponent P (Zpos q)).
  assert (Hq : 0 < Zpos q) by lia.
  assert (He : 0 <= e) by apply binary64_exponent_nonneg.
  assert (H2e : 0 < 2 ^ e) by (apply Z.pow_pos_nonneg; lia).
  assert (HD : 0 < 2 ^ 1074) by (apply Z.pow_pos_nonneg; lia).
  assert (Hpq : p <= Zpos q) by lia.
  rewrite Z.mul_1_r, Z.mul_1_l.
  destruct (Z_le_gt_dec p 0) as [Hneg|Hpos].
  - assert (Hm : binary64_mantissa P (Zpos q) <= 0).
    { apply round_half_even_le; [fold e; nia|]. subst P. nia. }
    nia.
  - assert (Hn : Z.abs P / Zpos q <= 2 ^ 1074).
    { apply Z.div_le_upper_bound; [lia|]. subst P. rewrite Z.abs_eq by nia. nia. }
    assert (Hlog : Z.log2 (Z.abs P / Zpos q) <= 1074).
    { rewrite <- (Z.log2_pow2 1074) by lia. apply Z.log2_le_mono. exact Hn. }
    assert (Hele : e <= 1074) by (subst e; unfold binary64_exponent; lia).
    assert (Hsplit : 2 ^ 1074 = 2 ^ (1074 - e) * 2 ^ e).
    { rewrite <- Z.pow_add_r by lia. f_equal. lia. }
    assert (Hm : binary64_mantissa P (Zpos q) <= 2 ^ (1074 - e)).
    { apply round_half_even_le; [fold e; nia|]. fold e. subst P.
      assert (p * 2 ^ 1074 <= Zpos q * 2 ^ 1074) by nia.
      rewrite Hsplit in H at 2. lia. }
    rewrite Hsplit. apply Z.mul_le_mono_nonneg_r; lia.
Qed.

Lemma binary64_pos (x : Q) : (1 # 2 ^ 53 <= x)%Q -> (0 < binary64 x)%Q.
Proof.
  intros Hx. rewrite binary64_value.
  assert (Hy : (1 # 2 ^ 53 <= Qred x)%Q) by (rewrite Qred_correct; exact Hx).
  destruct (Qred x) as [p q]. unfold Qle, Qlt in *. cbn [Qnum Qden] in *.
  set (P := p * 2 ^ 1074). set (e := binary64_exponent P (Zpos q)).
  assert (Hq : 0 < Zpos q) by lia.
  assert (He : 0 <= e) by apply binary64_exponent_nonneg.
  assert (H2e : 0 < 2 ^ e) by (apply Z.pow_pos_nonneg; lia).
  assert (H53 : Zpos (2 ^ 53)%positive = 2 ^ 53) by reflexivity.
  rewrite H53 in Hy.
  assert (Hsplit : 2 ^ 1074 = 2 ^ 53 * 2 ^ 1021) by reflexivity.
  assert (H1021 : 0 < 2 ^ 1021) by (apply Z.pow_pos_nonneg; lia).
  assert (HP : Zpos q * 2 ^ 1021 <= P).
  { subst P. rewrite Hsplit. nia. }
  assert (HPpos : 0 < P) by nia.
  assert (Hn : 2 ^ 1021 <= Z.abs P / Zpos q).
  { apply Z.div_le_lower_bound; [lia|]. rewrite Z.abs_eq by lia. lia. }
  assert (Hen : 2 ^ e <= Z.abs P / Zpos q).
  { subst e. unfold binary64_exponent.
    destruct (Z.max_spec 0 (Z.log2 (Z.abs P / Zpos q) - 52)) as [[_ ->]|[_ ->]].
    - pose proof (Z.log2_spec (Z.abs P / Zpos q) ltac:(lia)) as [Hlo _].
      eapply Z.le_trans; [|exact Hlo]. apply Z.pow_le_mono_r; lia.
    - cbn. lia. }
  assert (Hm : 1 <= binary64_mantissa P (Zpos q)).
  { apply round_half_even_ge; [fold e; nia|]. fold e.
    pose proof (Z.mul_div_le (Z.abs P) (Zpos q) Hq) as Hmd.
    rewrite Z.abs_eq in Hmd by lia. rewrite Z.abs_eq in Hen by lia. nia. }
  nia.
Qed.

(** Between [-1] and [1] the doubles nearest to [1] and [-1] are
    [1 - 2^-53] and [-(1 - 2^-53)]. *)
Lemma binary64_below_1 (x : Q) :
  (binary64 x < 1)%Q -> (1 # 2 ^ 53 <= 1 - binary64 x)%Q.
Proof.
  rewrite binary64_value.
  destruct (Qred x) as [p q]. cbn [Qnum Qden].
  set (P := p * 2 ^ 1074). set (e := binary64_exponent P (Zpos q)).
  set (m := binary64_mantissa P (Zpos q)).
  assert (Hq : 0 < Zpos q) by lia.
  assert (He : 0 <= e) by apply binary64_exponent_nonneg.
  assert (H2e : 0 < 2 ^ e) by (apply Z.pow_pos_nonneg; lia).
  pose proof (binary64_mantissa_bound P (Zpos q) Hq) as Hm. fold m in Hm.
  intros Hlt.
  assert (Hint : m * 2 ^ e < 2 ^ 1074).
  { unfold Qlt in Hlt. cbn [Qnum Qden] in Hlt. rewrite pos_pow_1074 in Hlt. lia. }
  assert (Hgrid : m * 2 ^ e <= 2 ^ 1074 - 2 ^ 1021).
  { destruct (Z_le_gt_dec e 1020) as [Hsmall|Hbig].
    - assert (2 ^ e <= 2 ^ 1020) by (apply Z.pow_le_mono_r; lia).
      assert (m * 2 ^ e <= 2 ^ 53 * 2 ^ 1020).
      { destruct (Z_le_gt_dec m 0); [nia|]. apply Z.mul_le_mono_nonneg; lia. }
      assert (2 ^ 53 * 2 ^ 1020 <= 2 ^ 1074 - 2 ^ 1021) by (vm_compute; discriminate).
      lia.
    - assert (H2 : 2 ^ e = 2 ^ (e - 1021) * 2 ^ 1021).
      { rewrite <- Z.pow_add_r by lia. f_equal. lia. }
      assert (H1021 : 0 < 2 ^ 1021) by (apply Z.pow_pos_nonneg; lia).
      assert (Hs : 2 ^ 1074 = 2 ^ 53 * 2 ^ 1021) by reflexivity.
      rewrite H2, Z.mul_assoc in Hint |- *. rewrite Hs in Hint |- *.
      assert (m * 2 ^ (e - 1021) < 2 ^ 53) by nia.
      nia. }
  unfold Qle, Qminus, Qplus, Qopp. cbn [Qnum Qden].
  rewrite !Pos2Z.inj_mul, pos_pow_1074.
  assert (H53 : Zpos (2 ^ 53)%positive = 2 ^ 53) by reflexivity.
  rewrite H53.
  assert (Hs : 2 ^ 1074 = 2 ^ 53 * 2 ^ 1021) by reflexivity.
  assert (H1021 : 0 < 2 ^ 1021) by (apply Z.pow_pos_nonneg; lia).
  assert (H253 : 0 < 2 ^ 53) by (apply Z.pow_pos_nonneg; lia).
  rewrite Hs in *. nia.
Qed.

Lemma binary64_above_minus_1 (x : Q) :
  (- (1) < binary64 x)%Q -> (1 # 2 ^ 53 <= 1 + binary64 x)%Q.
Proof.
  rewrite binary64_value.
  destruct (Qred x) as [p q]. cbn [Qnum Qden].
  set (P := p * 2 ^ 1074). set (e := binary64_exponent P (Zpos q)).
  set (m := binary64_mantissa P (Zpos q)).
  assert (Hq : 0 < Zpos q) by lia.
  assert (He : 0 <= e) by apply binary64_exponent_nonneg.
  assert (H2e : 0 < 2 ^ e) by (apply Z.pow_pos_nonneg; lia).
  pose proof (binary64_mantissa_bound P (Zpos q) Hq) as Hm. fold m in Hm.
  intros Hlt.
  assert (Hint : - 2 ^ 1074 < m * 2 ^ e).
  { unfold Qlt in Hlt. cbn [Qnum Qden Qopp] in Hlt. rewrite pos_pow_1074 in Hlt. lia. }
  assert (Hgrid : - (2 ^ 1074 - 2 ^ 1021) <= m * 2 ^ e).
  { destruct (Z_le_gt_dec e 1020) as [Hsmall|Hbig].
    - assert (2 ^ e <= 2 ^ 1020) by (apply Z.pow_le_mono_r; lia).
      assert (- (2 ^ 53 * 2 ^ 1020) <= m * 2 ^ e).
      { destruct (Z_le_gt_dec 0 m); [nia|].
        assert ((- m) * 2 ^ e <= 2 ^ 53 * 2 ^ 1020)
          by (apply Z.mul_le_mono_nonneg; lia).
        lia. }
      assert (2 ^ 53 * 2 ^ 1020 <= 2 ^ 1074 - 2 ^ 1021) by (vm_compute; discriminate).
      lia.
    - assert (H2 : 2 ^ e = 2 ^ (e - 1021) * 2 ^ 1021).
      { rewrite <- Z.pow_add_r by lia. f_equal. lia. }
      assert (H1021 : 0 < 2 ^ 1021) by (apply Z.pow_pos_nonneg; lia).
      assert (Hs : 2 ^ 1074 = 2 ^ 53 * 2 ^ 1021) by reflexivity.
      rewrite H2, Z.mul_assoc in Hint |- *. rewrite Hs in Hint |- *.
      assert (- 2 ^ 53 < m * 2 ^ (e - 1021)) by nia.
      nia. }
  unfold Qle, Qplus. cbn [Qnum Qden].
  rewrite !Pos2Z.inj_mul, pos_pow_1074.
  assert (H53 : Zpos (2 ^ 53)%positive = 2 ^ 53) by reflexivity.
  rewrite H53.
  assert (Hs : 2 ^ 1074 = 2 ^ 53 * 2 ^ 1021) by reflexivity.
  assert (H1021 : 0 < 2 ^ 1021) by (apply Z.pow_pos_nonneg; lia).
  assert (H253 : 0 < 2 ^ 53) by (apply Z.pow_pos_nonneg; lia).
  rewrite Hs in *. nia.
Qed.

Lemma binary64_compat (x y : Q) : x == y -> binary64 x = binary64 y.
Proof.
  intros Hxy. unfold binary64. f_equal. apply Qred_complete, Hxy.
Qed.

Section Properties.

Context (h : Header).
Context `{MC : Control.MecanumMotionController}.
Context `{VA : vesc.BridgedVescArray}.
Context `{CB : CommBase}.

Implicit Types (r : MecanumRobot) (delta t : Q).

(** *** The trim manager *)

(** The test of [update_drivetrim]. *)
Lemma bounds_test_true r delta :
  Qltb (- MAX_CURVATURE_CORRECTION_ h) (trimvalue_ r + delta)
  && Qltb (trimvalue_ r + delta) (MAX_CURVATURE_CORRECTION_ h) = true
  <-> within_correction h (trimvalue_ r + delta).
Proof.
  unfold within_correction. rewrite andb_true_iff, !Qltb_lt. reflexivity.
Qed.

Lemma update_drivetrim_rejected r delta :
  ~ within_correction h (trimvalue_ r + delta) ->
  update_drivetrim h delta r = r.
Proof.
  intros Hout. unfold update_drivetrim.
  destruct (Qltb _ _ && Qltb _ _) eqn:E; [|reflexivity].
  apply bounds_test_true in E. contradiction.
Qed.

(** What an accepted adjustment leaves in the object. *)
Lemma update_drivetrim_accepted r delta :
  within_correction h (trimvalue_ r + delta) ->
  let r' := update_drivetrim h delta r in
  let t := (trimvalue_ r + delta)%Q in
  trimvalue_ r' = t /\
  left_trim_ r' = (if Qle_bool 0 t then 1 else 1 + t)%Q /\
  right_trim_ r' = (if Qle_bool 0 t then 1 - t else 1)%Q /\
  mecanum_control__ r' =
    Control.setTrim (mecanum_control__ r) (left_trim_ r') (right_trim_ r') /\
  persistent_params_ r' = <["trim" := t]> (persistent_params_ r).
Proof.
  intros Hin. apply bounds_test_true in Hin.
  unfold update_drivetrim. rewrite Hin. cbn.
  destruct (Qle_bool 0 (trimvalue_ r + delta)); cbn; repeat split.
Qed.

(** The members the trim manager does not touch. *)
Lemma update_drivetrim_frame r delta :
  let r' := update_drivetrim h delta r in
  estop_ r' = estop_ r /\ motors_speeds_ r' = motors_speeds_ r /\
  robotstatus_ r' = robotstatus_ r /\ comm_base_ r' = comm_base_ r /\
  comm_type_ r' = comm_type_ r /\ vescArray_ r' = vescArray_ r.
Proof.
  unfold update_drivetrim.
  destruct (Qltb _ _ && Qltb _ _); [|repeat split].
  cbn. destruct (Qle_bool 0 (trimvalue_ r + delta)); cbn; repeat split.
Qed.

(** Every candidate is either inside the interval or not. *)
Lemma within_correction_dec t :
  within_correction h t \/ ~ within_correction h t.
Proof.
  unfold within_correction.
  destruct (Qlt_le_dec (- MAX_CURVATURE_CORRECTION_ h) t) as [Hlo|Hlo];
    destruct (Qlt_le_dec t (MAX_CURVATURE_CORRECTION_ h)) as [Hhi|Hhi];
    [left; auto | right; lra | right; lra | right; lra].
Qed.

(** *** The trim manager in [double] arithmetic *)

(** The test of [update_drivetrim_binary64]. *)
Lemma bounds_test_binary64 r delta :
  Qltb (- MAX_CURVATURE_CORRECTION_ h) (binary64 (trimvalue_ r + delta))
  && Qltb (binary64 (trimvalue_ r + delta)) (MAX_CURVATURE_CORRECTION_ h) = true
  <-> within_correction h (binary64 (trimvalue_ r + delta)).
Proof.
  unfold within_correction. rewrite andb_true_iff, !Qltb_lt. reflexivity.
Qed.

Lemma update_drivetrim_binary64_rejected r delta :
  ~ within_correction h (binary64 (trimvalue_ r + delta)) ->
  update_drivetrim_binary64 h delta r = r.
Proof.
  intros Hout. unfold update_drivetrim_binary64.
  destruct (Qltb _ _ && Qltb _ _) eqn:E; [|reflexivity].
  apply bounds_test_binary64 in E. contradiction.
Qed.

(** What an accepted adjustment leaves in the object. *)
Lemma update_drivetrim_binary64_accepted r delta :
  within_correction h (binary64 (trimvalue_ r + delta)) ->
  let r' := update_drivetrim_binary64 h delta r in
  let t := binary64 (trimvalue_ r + delta) in
  trimvalue_ r' = t /\
  left_trim_ r' = (if Qle_bool 0 t then 1%Q else binary64 (1 + t)) /\
  right_trim_ r' = (if Qle_bool 0 t then binary64 (1 - t) else 1%Q) /\
  mecanum_control__ r' =
    Control.setTrim (mecanum_control__ r) (left_trim_ r') (right_trim_ r') /\
  persistent_params_ r' = <["trim" := t]> (persistent_params_ r).
Proof.
  intros Hin. apply bounds_test_binary64 in Hin.
  unfold update_drivetrim_binary64. rewrite Hin. cbn.
  destruct (Qle_bool 0 (binary64 (trimvalue_ r + delta))); cbn; repeat split.
Qed.

(** Without rounding error the two versions of the function agree. *)
Lemma update_drivetrim_binary64_exact r delta :
  binary64 (trimvalue_ r + delta) = (trimvalue_ r + delta)%Q ->
  binary64 (1 - (trimvalue_ r + delta)) = (1 - (trimvalue_ r + delta))%Q ->
  binary64 (1 + (trimvalue_ r + delta)) = (1 + (trimvalue_ r + delta))%Q ->
  update_drivetrim_binary64 h delta r = update_drivetrim h delta r.
Proof.
  intros Hsum Hsub Hadd. unfold update_drivetrim_binary64, update_drivetrim.
  rewrite Hsum. cbn. rewrite Hsub, Hadd. reflexivity.
Qed.

Lemma accepted_side_formula_binary64 r delta :
  within_correction h (binary64 (trimvalue_ r + delta)) ->
  side_formula_binary64 (update_drivetrim_binary64 h delta r).
Proof.
  intros Hin.
  destruct (update_drivetrim_binary64_accepted r delta Hin) as (Ht & Hl & Hr & _).
  unfold side_formula_binary64. rewrite Ht, Hl, Hr.
  destruct (Qle_bool 0 (binary64 (trimvalue_ r + delta))) eqn:E.
  - apply Qle_bool_iff in E. split; [auto|].
    intros Hneg. exfalso. apply (Qlt_not_le _ _ Hneg E).
  - apply Qle_bool_gt in E. split; [|auto].
    intros Hpos. exfalso. apply (Qlt_not_le _ _ E Hpos).
Qed.

(** The rounded scales stay in [(0, 1]]: the trim is a [double] below 1 in
    magnitude, so it is at least [2^-53] away from 1 and from -1. *)
Lemma accepted_scales_in_range_binary64 r delta :
  (MAX_CURVATURE_CORRECTION_ h <= 1)%Q ->
  within_correction h (binary64 (trimvalue_ r + delta)) ->
  scales_in_range (update_drivetrim_binary64 h delta r).
Proof.
  intros Hmax Hin.
  destruct (update_drivetrim_binary64_accepted r delta Hin) as (_ & Hl & Hr & _).
  destruct Hin as [Hlo Hhi].
  unfold scales_in_range. rewrite Hl, Hr. clear Hl Hr.
  pose proof (binary64_below_1 (trimvalue_ r + delta)) as Hbelow.
  pose proof (binary64_above_minus_1 (trimvalue_ r + delta)) as Habove.
  revert Hlo Hhi Hbelow Habove.
  generalize (binary64 (trimvalue_ r + delta)). intros t Hlo Hhi Hbelow Habove.
  destruct (Qle_bool 0 t) eqn:E.
  - apply Qle_bool_iff in E.
    assert (Hgap : (1 # 2 ^ 53 <= 1 - t)%Q) by (apply Hbelow; lra).
    pose proof (binary64_pos (1 - t) Hgap) as Hpos.
    assert (Hle : (binary64 (1 - t) <= 1)%Q) by (apply binary64_le_1; lra).
    repeat split; (assumption || lra).
  - apply Qle_bool_gt in E.
    assert (Hgap : (1 # 2 ^ 53 <= 1 + t)%Q) by (apply Habove; lra).
    pose proof (binary64_pos (1 + t) Hgap) as Hpos.
    assert (Hle : (binary64 (1 + t) <= 1)%Q) by (apply binary64_le_1; lra).
    repeat split; (assumption || lra).
Qed.

(** C2. [adjust_trim(delta)] with [candidate = trimvalue + delta], the sum of
    two doubles: a candidate strictly inside
    [(-MAX_CORRECTION, +MAX_CORRECTION)] becomes the trim value, with
    [left_scale = 1], [right_scale = 1 - trimvalue] for a trim that is not
    negative and [left_scale = 1 + trimvalue], [right_scale = 1] otherwise
    (difference and sum of doubles); any other candidate, one exactly at a
    bound included, leaves the whole object as it was.  With
    [MAX_CORRECTION = 0.5] and [trimvalue = 0.45], [adjust_trim(0.1)] changes
    nothing and [adjust_trim(0.04)] gives [trimvalue = 0.49],
    [left_scale = 1], [right_scale = 0.51], the decimals being the doubles
    they are written for. *)
Theorem adjust_trim_commits_or_rejects r delta :
  let candidate := binary64 (trimvalue_ r + delta) in
  let r' := update_drivetrim_binary64 h delta r in
  (within_correction h candidate ->
     trimvalue_ r' = candidate /\
     ((0 <= trimvalue_ r')%Q ->
        left_trim_ r' = 1%Q /\ right_trim_ r' = binary64 (1 - trimvalue_ r')) /\
     ((trimvalue_ r' < 0)%Q ->
        left_trim_ r' = binary64 (1 + trimvalue_ r') /\ right_trim_ r' = 1%Q)) /\
  (~ within_correction h candidate -> r' = r) /\
  (candidate == MAX_CURVATURE_CORRECTION_ h \/
   candidate == - MAX_CURVATURE_CORRECTION_ h -> r' = r) /\
  (MAX_CURVATURE_CORRECTION_ h == 0.5 -> trimvalue_ r == binary64 0.45 ->
     update_drivetrim_binary64 h (binary64 0.1) r = r /\
     trimvalue_ (update_drivetrim_binary64 h (binary64 0.04) r) == binary64 0.49 /\
     left_trim_ (update_drivetrim_binary64 h (binary64 0.04) r) == 1 /\
     right_trim_ (update_drivetrim_binary64 h (binary64 0.04) r) == binary64 0.51).
Proof.
  cbn zeta. split; [|split; [|split]].
  - intros Hin. split.
    + apply (update_drivetrim_binary64_accepted r delta Hin).
    + apply (accepted_side_formula_binary64 r delta Hin).
  - apply update_drivetrim_binary64_rejected.
  - intros Hat. apply update_drivetrim_binary64_rejected.
    unfold within_correction. destruct Hat as [Hat|Hat]; rewrite Hat; lra.
  - intros Hmax Ht.
    assert (Hrej : binary64 (trimvalue_ r + binary64 0.1)
                   = binary64 (binary64 0.45 + binary64 0.1)).
    { apply binary64_compat. rewrite Ht. reflexivity. }
    assert (Hacc : binary64 (trimvalue_ r + binary64 0.04)
                   = binary64 (binary64 0.45 + binary64 0.04)).
    { apply binary64_compat. rewrite Ht. reflexivity. }
    assert (H55 : binary64 (binary64 0.45 + binary64 0.1) = binary64 0.55)
      by (vm_compute; reflexivity).
    assert (H49 : binary64 (binary64 0.45 + binary64 0.04) = binary64 0.49)
      by (vm_compute; reflexivity).
    assert (H51 : binary64 (1 - binary64 0.49) = binary64 0.51)
      by (vm_compute; reflexivity).
    assert (V55 : (1 # 2 < binary64 0.55)%Q) by (vm_compute; reflexivity).
    assert (V49 : (0 < binary64 0.49)%Q /\ (binary64 0.49 < 1 # 2)%Q)
      by (split; vm_compute; reflexivity).
    split.
    + apply update_drivetrim_binary64_rejected. rewrite Hrej, H55.
      unfold within_correction. rewrite Hmax. intros [_ Hhi].
      revert V55 Hhi. generalize (binary64 0.55). intros c V55 Hhi. lra.
    + assert (Hin : within_correction h (binary64 (trimvalue_ r + binary64 0.04))).
      { rewrite Hacc, H49. unfold within_correction. rewrite Hmax.
        revert V49. generalize (binary64 0.49). intros c [Vlo Vhi]. split; lra. }
      destruct (update_drivetrim_binary64_accepted r (binary64 0.04) Hin)
        as (Ht' & Hl & Hr & _).
      rewrite Ht', Hl, Hr, Hacc, H49.
      assert (Hle : Qle_bool 0 (binary64 0.49) = true) by (vm_compute; reflexivity).
      rewrite Hle, H51. repeat split; reflexivity.
Qed.

Lemma update_drivetrim_binary64_keeps_bounds r delta :
  within_correction h (trimvalue_ r) ->
  within_correction h (trimvalue_ (update_drivetrim_binary64 h delta r)).
Proof.
  intros Hr.
  destruct (within_correction_dec (binary64 (trimvalue_ r + delta))) as [Hin|Hout].
  - destruct (update_drivetrim_binary64_accepted r delta Hin) as (Ht & _).
    rewrite Ht. exact Hin.
  - rewrite (update_drivetrim_binary64_rejected r delta Hout). exact Hr.
Qed.

Lemma side_formula_binary64_one_side_full r :
  side_formula_binary64 r -> one_side_full r.
Proof.
  intros [Hpos Hneg]. split; intros Hc.
  - destruct (Hpos Hc) as [-> _]. reflexivity.
  - destruct (Hneg Hc) as [_ ->]. reflexivity.
Qed.

Lemma update_drivetrim_binary64_step r delta :
  (MAX_CURVATURE_CORRECTION_ h <= 1)%Q ->
  update_drivetrim_binary64 h delta r = r \/
  (side_formula_binary64 (update_drivetrim_binary64 h delta r) /\
   scales_in_range (update_drivetrim_binary64 h delta r) /\
   one_side_full (update_drivetrim_binary64 h delta r)).
Proof.
  intros Hmax.
  destruct (within_correction_dec (binary64 (trimvalue_ r + delta))) as [Hin|Hout].
  - right. split; [|split].
    + apply accepted_side_formula_binary64, Hin.
    + apply accepted_scales_in_range_binary64; assumption.
    + apply side_formula_binary64_one_side_full, accepted_side_formula_binary64, Hin.
  - left. apply update_drivetrim_binary64_rejected, Hout.
Qed.

Lemma adjust_trace_binary64_bounds (deltas : list Q) : forall r,
  within_correction h (trimvalue_ r) ->
  Forall (fun r' => within_correction h (trimvalue_ r'))
    (adjust_trace_binary64 h deltas r).
Proof.
  induction deltas as [|d ds IH]; intros r Hr; cbn.
  - constructor.
  - pose proof (update_drivetrim_binary64_keeps_bounds r d Hr) as Hr'.
    constructor; [exact Hr' | apply IH, Hr'].
Qed.

Lemma adjust_trace_binary64_steps (deltas : list Q) : forall r (i : nat) prev next,
  (MAX_CURVATURE_CORRECTION_ h <= 1)%Q ->
  (r :: adjust_trace_binary64 h deltas r) !! i = Some prev ->
  adjust_trace_binary64 h deltas r !! i = Some next ->
  next = prev \/
  (side_formula_binary64 next /\ scales_in_range next /\ one_side_full next).
Proof.
  induction deltas as [|d ds IH]; intros r i prev next Hmax Hprev Hnext.
  - cbn in Hnext. rewrite lookup_nil in Hnext. discriminate.
  - destruct i as [|i].
    + cbn in Hprev, Hnext. injection Hprev as <-. injection Hnext as <-.
      apply update_drivetrim_binary64_step, Hmax.
    + cbn in Hprev, Hnext.
      apply (IH (update_drivetrim_binary64 h d r) i); assumption.
Qed.

Lemma length_adjust_trace_binary64 (deltas : list Q) : forall r,
  length (adjust_trace_binary64 h deltas r) = length deltas.
Proof.
  induction deltas as [|d ds IH]; intros r; cbn; [reflexivity|].
  f_equal. apply IH.
Qed.

(** C3. Along every finite sequence of [adjust_trim] calls that starts from
    trim zero, in [double] arithmetic, the trim value stays strictly inside
    [(-MAX_CORRECTION, +MAX_CORRECTION)] after each call, and each call
    either leaves the object unchanged or leaves trim and scales in the
    documented formula, both scales in [(0, 1]] and one side at scale 1.
    The bound of the header is taken positive and at most 1. *)
Theorem adjust_trim_sequence_invariant (deltas : list Q) (r0 : MecanumRobot) :
  (0 < MAX_CURVATURE_CORRECTION_ h)%Q ->
  (MAX_CURVATURE_CORRECTION_ h <= 1)%Q ->
  trimvalue_ r0 == 0 ->
  length (adjust_trace_binary64 h deltas r0) = length deltas /\
  Forall (fun r => within_correction h (trimvalue_ r))
    (adjust_trace_binary64 h deltas r0) /\
  forall (i : nat) prev next,
    (r0 :: adjust_trace_binary64 h deltas r0) !! i = Some prev ->
    adjust_trace_binary64 h deltas r0 !! i = Some next ->
    next = prev \/
    (((0 <= trimvalue_ next)%Q ->
        left_trim_ next = 1%Q /\ right_trim_ next = binary64 (1 - trimvalue_ next)) /\
     ((trimvalue_ next < 0)%Q ->
        left_trim_ next = binary64 (1 + trimvalue_ next) /\ right_trim_ next = 1%Q)) /\
    ((0 < left_trim_ next)%Q /\ (left_trim_ next <= 1)%Q /\
     (0 < right_trim_ next)%Q /\ (right_trim_ next <= 1)%Q) /\
    (((0 <= trimvalue_ next)%Q -> left_trim_ next == 1) /\
     ((trimvalue_ next < 0)%Q -> right_trim_ next == 1)).
Proof.
  intros Hpos Hmax Hzero. split; [|split].
  - apply length_adjust_trace_binary64.
  - apply adjust_trace_binary64_bounds. unfold within_correction. lra.
  - intros i prev next Hprev Hnext.
    apply (adjust_trace_binary64_steps deltas r0 i prev next Hmax Hprev Hnext).
Qed.

(** *** Persistence of the trim *)


Lemma load_persistent_params_present r (v : Q) :
  persistent_params_ r !! "trim" = Some v ->
  load_persistent_params h r = update_drivetrim h v r.
Proof.
  intros Hsome. unfold load_persistent_params, Utilities.read_param.
  rewrite Hsome. reflexivity.
Qed.


(** The trim members of a constructed object are those left by
    [load_persistent_params]. *)
Lemma MecanumRobot_new_trim file slots device wr wb rl pid asc (r2 : MecanumRobot) :
  MecanumRobot_new h file slots device wr wb rl pid asc = inr r2 ->
  let loaded := load_persistent_params h (constructed_members h file slots wr wb rl pid asc) in
  trimvalue_ r2 = trimvalue_ loaded /\ left_trim_ r2 = left_trim_ loaded /\
  right_trim_ r2 = right_trim_ loaded /\ estop_ r2 = estop_ loaded /\
  motors_speeds_ r2 = motors_speeds_ loaded.
Proof.
  unfold MecanumRobot_new, register_comm_base. cbn zeta.
  set (loaded := load_persistent_params h _).
  destruct (String.eqb _ "CAN"); [|discriminate].
  destruct (negb (String.eqb device "internal")).
  - destruct (CommCan device []) as [i|c]; [discriminate|].
    intros [= <-]. cbn. repeat split.
  - intros [= <-]. cbn. repeat split.
Qed.



(** *** The motion control loop *)

(** The setpoint array after the four stores of one tick. *)
Lemma four_stores_same (f : Z -> Q) (a b c d : Z) (v : Q) (k : Z) :
  k = a \/ k = b \/ k = c \/ k = d ->
  (<[d := v]> (<[c := v]> (<[b := v]> (<[a := v]> f)))) k = v.
Proof.
  intros Hk. unfold insert, fn_insert.
  repeat case_decide; try reflexivity. lia.
Qed.

Lemma four_stores_distinct (f : Z -> Q) (a b c d : Z) (va vb vc vd : Q) :
  a <> b -> a <> c -> a <> d -> b <> c -> b <> d -> c <> d ->
  let g := <[d := vd]> (<[c := vc]> (<[b := vb]> (<[a := va]> f))) in
  g a = va /\ g b = vb /\ g c = vc /\ g d = vd.
Proof.
  intros Hab Hac Had Hbc Hbd Hcd. cbn zeta. unfold insert, fn_insert.
  repeat split; repeat case_decide; congruence.
Qed.

(** The branch of the tick that stops the robot. *)
Lemma motors_control_loop_stop time_now r :
  negb (estop_ r)
  && (time_now - cmd_ts (robotstatus_ r) <=? CONTROL_LOOP_TIMEOUT_MS_ h) = false ->
  let r' := motors_control_loop_tick h time_now r in
  setpoints_neutral h r' /\
  mecanum_control__ r' =
    snd (Control.getMeasuredVelocities
           (snd (Control.runMotionControl (mecanum_control__ r)
                   zero_velocities no_duty (measured_rpm r)))
           (measured_rpm r)).
Proof.
  intros Hcond. unfold motors_control_loop_tick. rewrite Hcond. cbn.
  split; [|reflexivity].
  unfold setpoints_neutral; cbn.
  repeat split; apply four_stores_same; auto.
Qed.

(** The branch of the tick that follows the command. *)
Lemma motors_control_loop_run time_now r :
  ids_distinct h ->
  negb (estop_ r)
  && (time_now - cmd_ts (robotstatus_ r) <=? CONTROL_LOOP_TIMEOUT_MS_ h) = true ->
  setpoints_are h
    (fst (Control.runMotionControl (mecanum_control__ r)
            (commanded r) no_duty (measured_rpm r)))
    (motors_control_loop_tick h time_now r).
Proof.
  intros (Hab & Hac & Had & Hbc & Hbd & Hcd) Hcond.
  unfold motors_control_loop_tick. rewrite Hcond. cbn.
  unfold setpoints_are; cbn.
  apply four_stores_distinct; assumption.
Qed.

(** C1. On every tick of the motion control loop: if the emergency stop is
    set or the age of the command, [now - cmd_ts], is above the staleness
    threshold, the four setpoints written are neutral whatever the stored
    command is, and the controller has been run on the all-zero command;
    otherwise the four setpoints written are the controller's output for the
    stored command and the measured wheel speeds (the four identifiers being
    pairwise different).  A threshold of 1000 ms
    with an age of 1001 ms gives neutral setpoints, and so does a set
    emergency stop whatever the command and its age. *)
Theorem motion_loop_safety_stop (time_now : Z) r :
  let age := time_now - cmd_ts (robotstatus_ r) in
  let r' := motors_control_loop_tick h time_now r in
  let stored_command :=
    {| Control.linear_velocity := cmd_linear_vel (robotstatus_ r);
       Control.trans_velocity := cmd_trans_vel (robotstatus_ r);
       Control.angular_velocity := cmd_angular_vel (robotstatus_ r) |} in
  let zero_command :=
    {| Control.linear_velocity := 0; Control.trans_velocity := 0;
       Control.angular_velocity := 0 |} in
  let zero_duty :=
    {| Control.fl := 0; Control.fr := 0; Control.rl := 0; Control.rr := 0 |} in
  let wheel_speeds :=
    {| Control.fl := motor1_rpm (robotstatus_ r);
       Control.fr := motor2_rpm (robotstatus_ r);
       Control.rl := motor3_rpm (robotstatus_ r);
       Control.rr := motor4_rpm (robotstatus_ r) |} in
  (estop_ r = true \/ CONTROL_LOOP_TIMEOUT_MS_ h < age ->
     motors_speeds_ r' (FRONT_LEFT h) = MOTOR_NEUTRAL_ h /\
     motors_speeds_ r' (FRONT_RIGHT h) = MOTOR_NEUTRAL_ h /\
     motors_speeds_ r' (BACK_LEFT h) = MOTOR_NEUTRAL_ h /\
     motors_speeds_ r' (BACK_RIGHT h) = MOTOR_NEUTRAL_ h /\
     mecanum_control__ r' =
       snd (Control.getMeasuredVelocities
              (snd (Control.runMotionControl (mecanum_control__ r)
                      zero_command zero_duty wheel_speeds))
              wheel_speeds)) /\
  (ids_distinct h -> estop_ r = false /\ age <= CONTROL_LOOP_TIMEOUT_MS_ h ->
     let output :=
       fst (Control.runMotionControl (mecanum_control__ r)
              stored_command zero_duty wheel_speeds) in
     motors_speeds_ r' (FRONT_LEFT h) = Control.fl output /\
     motors_speeds_ r' (FRONT_RIGHT h) = Control.fr output /\
     motors_speeds_ r' (BACK_LEFT h) = Control.rl output /\
     motors_speeds_ r' (BACK_RIGHT h) = Control.rr output /\
     mecanum_control__ r' =
       snd (Control.getMeasuredVelocities
              (snd (Control.runMotionControl (mecanum_control__ r)
                      stored_command zero_duty wheel_speeds))
              wheel_speeds)) /\
  (CONTROL_LOOP_TIMEOUT_MS_ h = 1000 -> age = 1001 -> setpoints_neutral h r') /\
  (estop_ r = true -> setpoints_neutral h r').
Proof.
  cbn zeta.
  assert (Hstop : estop_ r = true \/
                  CONTROL_LOOP_TIMEOUT_MS_ h < time_now - cmd_ts (robotstatus_ r) ->
                  negb (estop_ r)
                  && (time_now - cmd_ts (robotstatus_ r) <=? CONTROL_LOOP_TIMEOUT_MS_ h)
                  = false).
  { intros [He|Hage].
    - rewrite He. reflexivity.
    - apply andb_false_iff. right. apply Z.leb_gt. exact Hage. }
  split; [|split; [|split]].
  - intros Hc.
    destruct (motors_control_loop_stop time_now r (Hstop Hc))
      as [(Hfl & Hfr & Hbl & Hbr) Hctl].
    repeat (split; [assumption|]). exact Hctl.
  - intros Hids [He Hage].
    assert (Hcond : negb (estop_ r)
                    && (time_now - cmd_ts (robotstatus_ r) <=? CONTROL_LOOP_TIMEOUT_MS_ h)
                    = true).
    { rewrite He. cbn. apply Z.leb_le. exact Hage. }
    destruct (motors_control_loop_run time_now r Hids Hcond) as (Hfl & Hfr & Hbl & Hbr).
    repeat (split; [assumption|]).
    unfold motors_control_loop_tick. rewrite Hcond. reflexivity.
  - intros Hth Hage. apply motors_control_loop_stop, Hstop. right. lia.
  - intros He. apply motors_control_loop_stop, Hstop. left. exact He.
Qed.

(** *** The command dispatch loop *)

Lemma useCurrentControl_true (vid : Z) r :
  useCurrentControl h vid r = true <->
  motors_speeds_ r vid == MOTOR_NEUTRAL_ h /\
  linear_vel (robotstatus_ r) == MOTOR_NEUTRAL_ h /\
  trans_vel (robotstatus_ r) == MOTOR_NEUTRAL_ h /\
  angular_vel (robotstatus_ r) == MOTOR_NEUTRAL_ h.
Proof.
  unfold useCurrentControl. rewrite !andb_true_iff, !Qeq_bool_iff. tauto.
Qed.

(** Writing to the device changes neither setpoints nor status, so the
    command of a motor is the same at every point of the pass. *)
Lemma channel_command_set_comm_base (vid : Z) r (c : option comm) :
  channel_command h vid (set_comm_base c r) = channel_command h vid r.
Proof. reflexivity. Qed.

(** The loop stops at once when the counter is past [BACK_RIGHT]. *)
Lemma send_command_for_done (fuel : nat) (vid : Z) r issued :
  BACK_RIGHT h < vid ->
  send_command_for h (S fuel) vid r issued = Some (r, issued).
Proof.
  intros Hpast. cbn. apply Z.leb_gt in Hpast. rewrite Hpast. reflexivity.
Qed.

(** One iteration of the loop. *)
Lemma send_command_for_step (fuel : nat) (vid : Z) r issued (dev : comm) :
  vid <= BACK_RIGHT h ->
  comm_base_ r = Some dev ->
  send_command_for h (S fuel) vid r issued =
  send_command_for h fuel (uint8_succ vid)
    (set_comm_base
       (Some (write_to_device dev
                (vesc.buildCommandMessage (vescArray_ r) (channel_command h vid r)))) r)
    (issued ++ [channel_command h vid r]).
Proof.
  intros Hle Hdev. cbn. apply Z.leb_le in Hle. rewrite Hle, Hdev. reflexivity.
Qed.

Lemma send_command_tick_four (fuel : nat) r (dev : comm) :
  ids_consecutive h ->
  comm_base_ r = Some dev ->
  (5 <= fuel)%nat ->
  send_command_tick h fuel r =
  Some (set_comm_base
          (Some (write_to_device
                   (write_to_device
                      (write_to_device
                         (write_to_device dev (frame_of h (FRONT_LEFT h) r))
                         (frame_of h (FRONT_RIGHT h) r))
                      (frame_of h (BACK_LEFT h) r))
                   (frame_of h (BACK_RIGHT h) r))) r,
        [channel_command h (FRONT_LEFT h) r; channel_command h (FRONT_RIGHT h) r;
         channel_command h (BACK_LEFT h) r; channel_command h (BACK_RIGHT h) r]).
Proof.
  intros (H0 & Hfr & Hbl & Hbr & Hmax) Hdev Hfuel.
  do 5 (destruct fuel as [|fuel]; [lia|]).
  unfold send_command_tick. rewrite (Z.mod_small (FRONT_LEFT h)) by lia.
  assert (Hs : forall k, 0 <= k < 255 -> uint8_succ k = k + 1).
  { intros k Hk. unfold uint8_succ. apply Z.mod_small. lia. }
  rewrite (send_command_for_step _ _ _ _ dev) by (lia || assumption).
  rewrite Hs by lia.
  erewrite send_command_for_step by (cbn; (lia || reflexivity)).
  rewrite Hs by lia.
  erewrite send_command_for_step by (cbn; (lia || reflexivity)).
  rewrite Hs by lia.
  erewrite send_command_for_step by (cbn; (lia || reflexivity)).
  rewrite Hs by lia.
  rewrite send_command_for_done by lia.
  unfold frame_of. cbn.
  replace (FRONT_LEFT h + 1 + 1 + 1) with (BACK_RIGHT h) by lia.
  replace (FRONT_LEFT h + 1 + 1) with (BACK_LEFT h) by lia.
  replace (FRONT_LEFT h + 1) with (FRONT_RIGHT h) by lia.
  reflexivity.
Qed.

(** C5. For every wheel, hold mode is selected exactly when the wheel's own
    setpoint and the three measured velocities of the robot (linear, lateral,
    angular) are all at neutral; the command then has type CURRENT and the
    neutral value, and otherwise type DUTY and the wheel's signed setpoint;
    one tick encodes one message per wheel and writes it to the transport,
    for front-left, front-right, back-left and back-right in this order (the
    identifiers being consecutive in this order), and leaves status,
    setpoints and emergency stop as they were. *)
Theorem dispatch_selects_hold_mode r (dev : comm) :
  (forall vid : Z,
     useCurrentControl h vid r = true <->
     motors_speeds_ r vid == MOTOR_NEUTRAL_ h /\
     linear_vel (robotstatus_ r) == MOTOR_NEUTRAL_ h /\
     trans_vel (robotstatus_ r) == MOTOR_NEUTRAL_ h /\
     angular_vel (robotstatus_ r) == MOTOR_NEUTRAL_ h) /\
  (forall vid : Z,
     useCurrentControl h vid r = true ->
     channel_command h vid r =
     {| vesc.cmd_vescId := vid; vesc.commandType := vesc.CURRENT;
        vesc.commandValue := MOTOR_NEUTRAL_ h |}) /\
  (forall vid : Z,
     useCurrentControl h vid r = false ->
     channel_command h vid r =
     {| vesc.cmd_vescId := vid; vesc.commandType := vesc.DUTY;
        vesc.commandValue := motors_speeds_ r vid |}) /\
  (ids_consecutive h ->
   comm_base_ r = Some dev ->
   forall fuel : nat, (5 <= fuel)%nat ->
     let hold (vid : Z) : bool :=
       Qeq_bool (motors_speeds_ r vid) (MOTOR_NEUTRAL_ h)
       && Qeq_bool (linear_vel (robotstatus_ r)) (MOTOR_NEUTRAL_ h)
       && Qeq_bool (trans_vel (robotstatus_ r)) (MOTOR_NEUTRAL_ h)
       && Qeq_bool (angular_vel (robotstatus_ r)) (MOTOR_NEUTRAL_ h) in
     let command (vid : Z) : vesc.vescChannelCommand :=
       {| vesc.cmd_vescId := vid;
          vesc.commandType := if hold vid then vesc.CURRENT else vesc.DUTY;
          vesc.commandValue :=
            if hold vid then MOTOR_NEUTRAL_ h else motors_speeds_ r vid |} in
     let frame (vid : Z) : list Byte.byte :=
       vesc.buildCommandMessage (vescArray_ r) (command vid) in
     exists r' : MecanumRobot,
       send_command_tick h fuel r
       = Some (r', [command (FRONT_LEFT h); command (FRONT_RIGHT h);
                    command (BACK_LEFT h); command (BACK_RIGHT h)]) /\
       comm_base_ r'
       = Some (write_to_device
                 (write_to_device
                    (write_to_device
                       (write_to_device dev (frame (FRONT_LEFT h)))
                       (frame (FRONT_RIGHT h)))
                    (frame (BACK_LEFT h)))
                 (frame (BACK_RIGHT h))) /\
       robotstatus_ r' = robotstatus_ r /\
       motors_speeds_ r' = motors_speeds_ r /\
       estop_ r' = estop_ r).
Proof.
  split; [|split; [|split]].
  - intros vid. apply useCurrentControl_true.
  - intros vid Hhold. unfold channel_command. rewrite Hhold. reflexivity.
  - intros vid Hduty. unfold channel_command. rewrite Hduty. reflexivity.
  - intros Hids Hdev fuel Hfuel. cbn zeta.
    rewrite (send_command_tick_four fuel r dev Hids Hdev Hfuel).
    eexists. split; [reflexivity|]. cbn. repeat split.
Qed.

(** *** The telemetry demultiplexer *)

Lemma unpack_comm_response_invalid (robotmsg : list Byte.byte) r :
  vesc.dataValid (vesc.parseReceivedMessage (vescArray_ r) robotmsg) = false ->
  unpack_comm_response h robotmsg r = r.
Proof.
  intros Hbad. unfold unpack_comm_response. rewrite Hbad. reflexivity.
Qed.

Lemma unpack_comm_response_unknown (robotmsg : list Byte.byte) r :
  ~ known_id h (vesc.vescId (vesc.parseReceivedMessage (vescArray_ r) robotmsg)) ->
  unpack_comm_response h robotmsg r = r.
Proof.
  intros Hunknown. unfold unpack_comm_response, known_id in *. cbn zeta.
  destruct (vesc.dataValid _); [|reflexivity].
  repeat match goal with
         | |- context [?a =? ?b] =>
             destruct (Z.eqb_spec a b); [exfalso; apply Hunknown; auto|]
         end.
  reflexivity.
Qed.

(** C6. A decoded message changes the object only when its payload is valid
    and its motor identifier is one of the four wheels: then that wheel's
    speed, identifier and current are those of the message and the three
    other wheels keep theirs; no message changes any other field of the
    status or any other member; an invalid payload, or a valid one with an
    unknown identifier, leaves the whole object as it was. *)
Theorem telemetry_routed_by_identifier (robotmsg : list Byte.byte) r :
  let m := vesc.parseReceivedMessage (vescArray_ r) robotmsg in
  let r' := unpack_comm_response h robotmsg r in
  let received := (vesc.rpm m, vesc.vescId m, vesc.current m) in
  let wheel1 (d : robotData) := (motor1_rpm d, motor1_id d, motor1_current d) in
  let wheel2 (d : robotData) := (motor2_rpm d, motor2_id d, motor2_current d) in
  let wheel3 (d : robotData) := (motor3_rpm d, motor3_id d, motor3_current d) in
  let wheel4 (d : robotData) := (motor4_rpm d, motor4_id d, motor4_current d) in
  (ids_distinct h -> vesc.dataValid m = true ->
     (vesc.vescId m = FRONT_LEFT h ->
        wheel1 (robotstatus_ r') = received /\
        wheel2 (robotstatus_ r') = wheel2 (robotstatus_ r) /\
        wheel3 (robotstatus_ r') = wheel3 (robotstatus_ r) /\
        wheel4 (robotstatus_ r') = wheel4 (robotstatus_ r)) /\
     (vesc.vescId m = FRONT_RIGHT h ->
        wheel1 (robotstatus_ r') = wheel1 (robotstatus_ r) /\
        wheel2 (robotstatus_ r') = received /\
        wheel3 (robotstatus_ r') = wheel3 (robotstatus_ r) /\
        wheel4 (robotstatus_ r') = wheel4 (robotstatus_ r)) /\
     (vesc.vescId m = BACK_LEFT h ->
        wheel1 (robotstatus_ r') = wheel1 (robotstatus_ r) /\
        wheel2 (robotstatus_ r') = wheel2 (robotstatus_ r) /\
        wheel3 (robotstatus_ r') = received /\
        wheel4 (robotstatus_ r') = wheel4 (robotstatus_ r)) /\
     (vesc.vescId m = BACK_RIGHT h ->
        wheel1 (robotstatus_ r') = wheel1 (robotstatus_ r) /\
        wheel2 (robotstatus_ r') = wheel2 (robotstatus_ r) /\
        wheel3 (robotstatus_ r') = wheel3 (robotstatus_ r) /\
        wheel4 (robotstatus_ r') = received)) /\
  ((linear_vel (robotstatus_ r'), trans_vel (robotstatus_ r'),
    angular_vel (robotstatus_ r'))
   = (linear_vel (robotstatus_ r), trans_vel (robotstatus_ r),
      angular_vel (robotstatus_ r)) /\
   (cmd_linear_vel (robotstatus_ r'), cmd_angular_vel (robotstatus_ r'),
    cmd_trans_vel (robotstatus_ r'), cmd_ts (robotstatus_ r'))
   = (cmd_linear_vel (robotstatus_ r), cmd_angular_vel (robotstatus_ r),
      cmd_trans_vel (robotstatus_ r), cmd_ts (robotstatus_ r)) /\
   motors_speeds_ r' = motors_speeds_ r /\
   estop_ r' = estop_ r /\
   (trimvalue_ r', left_trim_ r', right_trim_ r')
   = (trimvalue_ r, left_trim_ r, right_trim_ r) /\
   persistent_params_ r' = persistent_params_ r /\
   mecanum_control__ r' = mecanum_control__ r /\
   comm_base_ r' = comm_base_ r /\
   comm_type_ r' = comm_type_ r /\
   vescArray_ r' = vescArray_ r /\
   pid_ r' = pid_ r /\
   robot_geometry_ r' = robot_geometry_ r /\
   angular_scaling_params_ r' = angular_scaling_params_ r) /\
  (vesc.dataValid m = false \/ ~ known_id h (vesc.vescId m) -> r' = r) /\
  (r' <> r -> vesc.dataValid m = true /\ known_id h (vesc.vescId m)).
Proof.
  cbn zeta. split; [|split; [|split]].
  - intros (Hab & Hac & Had & Hbc & Hbd & Hcd) Hvalid.
    unfold unpack_comm_response. rewrite Hvalid. cbn zeta.
    split; [|split; [|split]]; intros Hid; rewrite Hid;
      repeat match goal with
             | |- context [?a =? ?b] =>
                 destruct (Z.eqb_spec a b); [try (cbn; repeat split; fail); congruence|]
             end; congruence.
  - unfold unpack_comm_response. cbn zeta.
    destruct (vesc.dataValid _); [|repeat split].
    repeat match goal with
           | |- context [?a =? ?b] => destruct (a =? b)
           end; repeat split.
  - intros [Hbad|Hunknown].
    + apply unpack_comm_response_invalid, Hbad.
    + apply unpack_comm_response_unknown, Hunknown.
  - intros Hchanged.
    destruct (vesc.dataValid (vesc.parseReceivedMessage (vescArray_ r) robotmsg)) eqn:Hv.
    + split; [reflexivity|].
      unfold known_id.
      destruct (Z.eq_dec (vesc.vescId (vesc.parseReceivedMessage (vescArray_ r) robotmsg))
                  (FRONT_LEFT h)); [auto|].
      destruct (Z.eq_dec (vesc.vescId (vesc.parseReceivedMessage (vescArray_ r) robotmsg))
                  (FRONT_RIGHT h)); [auto|].
      destruct (Z.eq_dec (vesc.vescId (vesc.parseReceivedMessage (vescArray_ r) robotmsg))
                  (BACK_LEFT h)); [auto|].
      destruct (Z.eq_dec (vesc.vescId (vesc.parseReceivedMessage (vescArray_ r) robotmsg))
                  (BACK_RIGHT h)); [auto|].
      exfalso. apply Hchanged, unpack_comm_response_unknown.
      unfold known_id. tauto.
    + exfalso. apply Hchanged, unpack_comm_response_invalid, Hv.
Qed.

(** *** The velocity command *)

(** C7. [set_velocity_command(linear, angular, translational)], the three
    values being elements 0, 1 and 3 of the array handed to
    [set_robot_velocity]: afterwards the commanded linear, angular and lateral
    velocities are these values and the command timestamp is the current
    time; setpoints, telemetry, measured velocities, emergency stop and every
    other member are as before. *)
Theorem velocity_command_overwrites (control_array : list Q) (now : Z) r
    (linear angular translational : Q) :
  control_array !! 0%nat = Some linear ->
  control_array !! 1%nat = Some angular ->
  control_array !! 3%nat = Some translational ->
  exists r' : MecanumRobot,
    set_robot_velocity control_array now r = Some r' /\
    cmd_linear_vel (robotstatus_ r') = linear /\
    cmd_angular_vel (robotstatus_ r') = angular /\
    cmd_trans_vel (robotstatus_ r') = translational /\
    cmd_ts (robotstatus_ r') = now /\
    r' = set_robotstatus (set_cmd linear angular translational now (robotstatus_ r)) r /\
    motors_speeds_ r' = motors_speeds_ r /\
    estop_ r' = estop_ r /\
    (motor1_id (robotstatus_ r'), motor1_rpm (robotstatus_ r'), motor1_current (robotstatus_ r'))
    = (motor1_id (robotstatus_ r), motor1_rpm (robotstatus_ r), motor1_current (robotstatus_ r)) /\
    (motor2_id (robotstatus_ r'), motor2_rpm (robotstatus_ r'), motor2_current (robotstatus_ r'))
    = (motor2_id (robotstatus_ r), motor2_rpm (robotstatus_ r), motor2_current (robotstatus_ r)) /\
    (motor3_id (robotstatus_ r'), motor3_rpm (robotstatus_ r'), motor3_current (robotstatus_ r'))
    = (motor3_id (robotstatus_ r), motor3_rpm (robotstatus_ r), motor3_current (robotstatus_ r)) /\
    (motor4_id (robotstatus_ r'), motor4_rpm (robotstatus_ r'), motor4_current (robotstatus_ r'))
    = (motor4_id (robotstatus_ r), motor4_rpm (robotstatus_ r), motor4_current (robotstatus_ r)) /\
    (linear_vel (robotstatus_ r'), trans_vel (robotstatus_ r'), angular_vel (robotstatus_ r'))
    = (linear_vel (robotstatus_ r), trans_vel (robotstatus_ r), angular_vel (robotstatus_ r)) /\
    (trimvalue_ r', left_trim_ r', right_trim_ r') = (trimvalue_ r, left_trim_ r, right_trim_ r) /\
    mecanum_control__ r' = mecanum_control__ r /\
    comm_base_ r' = comm_base_ r /\
    persistent_params_ r' = persistent_params_ r.
Proof.
  intros H0 H1 H3.
  exists (set_robotstatus (set_cmd linear angular translational now (robotstatus_ r)) r).
  unfold set_robot_velocity. rewrite H0, H1, H3.
  cbn. repeat split.
Qed.

(** *** Construction *)

Lemma load_persistent_params_frame r :
  estop_ (load_persistent_params h r) = estop_ r /\
  motors_speeds_ (load_persistent_params h r) = motors_speeds_ r /\
  comm_base_ (load_persistent_params h r) = comm_base_ r /\
  comm_type_ (load_persistent_params h r) = comm_type_ r.
Proof.
  unfold load_persistent_params.
  destruct (Utilities.read_param _ _) as [v|]; [|repeat split].
  destruct (update_drivetrim_frame r v) as (He & Hm & _ & Hc & Ht & _).
  repeat split; assumption.
Qed.

(** An exception of the transport's constructor leaves
    [register_comm_base]. *)
Lemma register_comm_base_rethrows (device : string) r (i : Z) :
  comm_type_ r = "CAN" ->
  device <> "internal" ->
  CommCan device [] = inl i ->
  register_comm_base device r = inl i.
Proof.
  intros Hcan Hdev Hthrow. unfold register_comm_base.
  rewrite Hcan. cbn.
  destruct (String.eqb_spec device "internal") as [Heq|_]; [contradiction|].
  cbn. rewrite Hthrow. reflexivity.
Qed.

(** Any communication mode other than ["CAN"] is refused with -2. *)
Lemma register_comm_base_unsupported (device : string) r :
  comm_type_ r <> "CAN" ->
  register_comm_base device r = inl (-2).
Proof.
  intros Hmode. unfold register_comm_base.
  destruct (String.eqb_spec (comm_type_ r) "CAN") as [Heq|_]; [contradiction|].
  reflexivity.
Qed.

(** The constructor lets the exception of the transport through. *)
Lemma MecanumRobot_new_rethrows file slots (device : string) wr wb rl pid asc (i : Z) :
  device <> "internal" ->
  CommCan device [] = inl i ->
  MecanumRobot_new h file slots device wr wb rl pid asc = inl i.
Proof.
  intros Hdev Hthrow. unfold MecanumRobot_new. cbn zeta.
  apply register_comm_base_rethrows; [|exact Hdev|exact Hthrow].
  cbn. apply load_persistent_params_frame.
Qed.

(** The dispatch loop on an object without transport: its first write goes
    through the null pointer, whatever the fuel. *)
Lemma dispatch_without_transport (fuel : nat) r :
  comm_base_ r = None ->
  FRONT_LEFT h mod 256 <= BACK_RIGHT h ->
  send_command_tick h fuel r = None.
Proof.
  intros Hnull Hle. unfold send_command_tick.
  destruct fuel as [|fuel]; [reflexivity|].
  cbn fix beta iota delta [send_command_for].
  apply Z.leb_le in Hle. rewrite Hle, Hnull. reflexivity.
Qed.

(** C8. Evaluation of the constructor on the device name ["internal"]: the
    branch that would open the transport is empty, so the constructor
    returns an object, without raising anything, whose [comm_base_] is still
    null; [is_connected] on that object dereferences the null pointer. *)
Theorem internal_device_builds_without_transport file slots wr wb rl pid asc :
  exists r : MecanumRobot,
    MecanumRobot_new h file slots "internal" wr wb rl pid asc = inr r /\
    comm_base_ r = None /\
    is_connected r = None.
Proof.
  unfold MecanumRobot_new. cbn zeta.
  set (r0 := set_mecanum_control _ _).
  assert (Hcan : comm_type_ r0 = "CAN").
  { subst r0. cbn. apply load_persistent_params_frame. }
  assert (Hnull : comm_base_ r0 = None).
  { subst r0. cbn.
    destruct (load_persistent_params_frame
                (constructed_members h file slots wr wb rl pid asc)) as (_ & _ & -> & _).
    reflexivity. }
  exists r0. unfold register_comm_base. rewrite Hcan. cbn.
  split; [reflexivity|]. split; [exact Hnull|].
  unfold is_connected. rewrite Hnull. reflexivity.
Qed.

(** C9. Right after a successful construction the emergency stop is clear
    and the four wheel setpoints are neutral. *)
Theorem constructed_robot_is_stopped file slots (device : string) wr wb rl pid asc r :
  MecanumRobot_new h file slots device wr wb rl pid asc = inr r ->
  estop_ r = false /\ setpoints_neutral h r.
Proof.
  intros Hnew.
  destruct (MecanumRobot_new_trim _ _ _ _ _ _ _ _ _ Hnew) as (_ & _ & _ & He & Hm).
  destruct (load_persistent_params_frame
              (constructed_members h file slots wr wb rl pid asc)) as (He' & Hm' & _).
  rewrite He' in He. rewrite Hm' in Hm.
  split; [exact He|].
  unfold setpoints_neutral. rewrite Hm. cbn.
  repeat split; apply four_stores_same; auto.
Qed.

(** *** Operating modes *)

(** C10. [cycle_robot_mode] returns -1 and leaves the object as it was, in
    every state. *)
Theorem cycle_robot_mode_always_rejected r :
  fst (cycle_robot_mode r) = -1 /\ snd (cycle_robot_mode r) = r.
Proof. split; reflexivity. Qed.

End Properties.

(** ** Further properties of the member functions *)
Section Further.

Context (h : Header).
Context `{MC : Control.MecanumMotionController}.
Context `{VA : vesc.BridgedVescArray}.
Context `{CB : CommBase}.

Implicit Types (r : MecanumRobot) (delta t : Q).

(** *** The motion control loop, tick after tick *)

(** What a tick does not write. *)
Lemma motors_control_loop_tick_frame (time_now : Z) r :
  let r' := motors_control_loop_tick h time_now r in
  estop_ r' = estop_ r /\
  cmd_ts (robotstatus_ r') = cmd_ts (robotstatus_ r) /\
  commanded r' = commanded r /\
  measured_rpm r' = measured_rpm r /\
  (trimvalue_ r', left_trim_ r', right_trim_ r') = (trimvalue_ r, left_trim_ r, right_trim_ r) /\
  persistent_params_ r' = persistent_params_ r /\
  comm_base_ r' = comm_base_ r.
Proof.
  unfold motors_control_loop_tick.
  destruct (negb (estop_ r) && _); cbn; repeat split.
Qed.

(** X1. A tick of the motion control loop writes the four setpoints, the
    three measured velocities and the controller, and nothing else: the
    stored command and its timestamp, the telemetry of the four wheels, the
    emergency stop, the trim, the parameter store, the transport and the
    setpoint slots of all other identifiers are as before. *)
Theorem motion_tick_writes_only_setpoints_and_estimate (time_now : Z) r :
  let r' := motors_control_loop_tick h time_now r in
  estop_ r' = estop_ r /\
  (cmd_linear_vel (robotstatus_ r'), cmd_angular_vel (robotstatus_ r'),
   cmd_trans_vel (robotstatus_ r'), cmd_ts (robotstatus_ r'))
  = (cmd_linear_vel (robotstatus_ r), cmd_angular_vel (robotstatus_ r),
     cmd_trans_vel (robotstatus_ r), cmd_ts (robotstatus_ r)) /\
  (motor1_id (robotstatus_ r'), motor1_rpm (robotstatus_ r'), motor1_current (robotstatus_ r'))
  = (motor1_id (robotstatus_ r), motor1_rpm (robotstatus_ r), motor1_current (robotstatus_ r)) /\
  (motor2_id (robotstatus_ r'), motor2_rpm (robotstatus_ r'), motor2_current (robotstatus_ r'))
  = (motor2_id (robotstatus_ r), motor2_rpm (robotstatus_ r), motor2_current (robotstatus_ r)) /\
  (motor3_id (robotstatus_ r'), motor3_rpm (robotstatus_ r'), motor3_current (robotstatus_ r'))
  = (motor3_id (robotstatus_ r), motor3_rpm (robotstatus_ r), motor3_current (robotstatus_ r)) /\
  (motor4_id (robotstatus_ r'), motor4_rpm (robotstatus_ r'), motor4_current (robotstatus_ r'))
  = (motor4_id (robotstatus_ r), motor4_rpm (robotstatus_ r), motor4_current (robotstatus_ r)) /\
  (trimvalue_ r', left_trim_ r', right_trim_ r') = (trimvalue_ r, left_trim_ r, right_trim_ r) /\
  persistent_params_ r' = persistent_params_ r /\
  comm_base_ r' = comm_base_ r /\
  forall id : Z, ~ known_id h id -> motors_speeds_ r' id = motors_speeds_ r id.
Proof.
  unfold motors_control_loop_tick.
  destruct (negb (estop_ r) && _); cbn; repeat split;
    intros id Hid; unfold known_id in Hid;
    unfold insert, fn_insert; repeat case_decide; try reflexivity;
    exfalso; apply Hid; auto.
Qed.

(** On every tick, stop branch or not, the measured velocities of the
    status are the controller's estimate for the four wheel speeds of the
    telemetry, taken after the controller has run on the command of the
    tick (the stored one, or zero when stopped or stale); the controller
    kept is the one after both calls. *)
Theorem motion_tick_refreshes_estimate (time_now : Z) r :
  let r' := motors_control_loop_tick h time_now r in
  let run :=
    Control.runMotionControl (mecanum_control__ r)
      (effective_command h time_now r) no_duty (measured_rpm r) in
  let est := Control.getMeasuredVelocities (snd run) (measured_rpm r) in
  linear_vel (robotstatus_ r') = Control.linear_velocity (fst est) /\
  trans_vel (robotstatus_ r') = Control.trans_velocity (fst est) /\
  angular_vel (robotstatus_ r') = Control.angular_velocity (fst est) /\
  mecanum_control__ r' = snd est.
Proof.
  unfold motors_control_loop_tick, effective_command.
  destruct (negb (estop_ r) && _); cbn; repeat split.
Qed.

Lemma stop_condition_estop (time_now : Z) r :
  estop_ r = true ->
  negb (estop_ r)
  && (time_now - cmd_ts (robotstatus_ r) <=? CONTROL_LOOP_TIMEOUT_MS_ h) = false.
Proof. intros ->. reflexivity. Qed.

Lemma stop_condition_stale (time_now : Z) r :
  CONTROL_LOOP_TIMEOUT_MS_ h < time_now - cmd_ts (robotstatus_ r) ->
  negb (estop_ r)
  && (time_now - cmd_ts (robotstatus_ r) <=? CONTROL_LOOP_TIMEOUT_MS_ h) = false.
Proof.
  intros Hage. apply andb_false_iff. right. apply Z.leb_gt. exact Hage.
Qed.

Lemma motors_control_loop_ticks_estop (times : list Z) : forall r,
  estop_ (motors_control_loop_ticks h times r) = estop_ r /\
  cmd_ts (robotstatus_ (motors_control_loop_ticks h times r)) = cmd_ts (robotstatus_ r).
Proof.
  induction times as [|time_now later IH]; intros r; cbn; [split; reflexivity|].
  destruct (IH (motors_control_loop_tick h time_now r)) as [-> ->].
  destruct (motors_control_loop_tick_frame time_now r) as (He & Hts & _).
  split; assumption.
Qed.

(** Ticks that all take the stop branch leave neutral setpoints. *)
Lemma stopped_ticks_neutral (times : list Z) : forall r,
  times <> [] ->
  (estop_ r = true \/
   Forall (fun time_now => CONTROL_LOOP_TIMEOUT_MS_ h < time_now - cmd_ts (robotstatus_ r))
     times) ->
  setpoints_neutral h (motors_control_loop_ticks h times r).
Proof.
  induction times as [|time_now later IH]; intros r Hne Hstop; [contradiction|].
  cbn. destruct (motors_control_loop_tick_frame time_now r) as (He & Hts & _).
  destruct later as [|next later].
  - cbn. apply motors_control_loop_stop.
    destruct Hstop as [Hestop|Hstale].
    + apply stop_condition_estop, Hestop.
    + apply stop_condition_stale. inversion Hstale; assumption.
  - apply IH; [discriminate|].
    destruct Hstop as [Hestop|Hstale].
    + left. rewrite He. exact Hestop.
    + right. rewrite Hts. inversion Hstale; assumption.
Qed.

(** X2. The emergency stop is kept by the loop: once it is set, after any
    number of ticks, at any clock readings and whatever command is stored,
    the flag is still set and the four setpoints are neutral. *)
Theorem estop_holds_across_ticks (times : list Z) r :
  estop_ r = true ->
  times <> [] ->
  estop_ (motors_control_loop_ticks h times r) = true /\
  setpoints_neutral h (motors_control_loop_ticks h times r).
Proof.
  intros Hestop Hne. split.
  - destruct (motors_control_loop_ticks_estop times r) as [-> _]. exact Hestop.
  - apply stopped_ticks_neutral; [exact Hne|left; exact Hestop].
Qed.


(** *** Construction, continued *)

Lemma load_persistent_params_status r :
  robotstatus_ (load_persistent_params h r) = robotstatus_ r.
Proof.
  unfold load_persistent_params.
  destruct (Utilities.read_param _ _) as [v|]; [|reflexivity].
  apply (update_drivetrim_frame h r v).
Qed.

(** The constructor after [load_persistent_params]: two calls on the
    controller, and the transport. *)
Lemma MecanumRobot_new_loaded file slots (device : string) wr wb rl pid asc r :
  MecanumRobot_new h file slots device wr wb rl pid asc = inr r ->
  let loaded :=
    load_persistent_params h (constructed_members h file slots wr wb rl pid asc) in
  robotstatus_ r = robotstatus_ loaded /\
  persistent_params_ r = persistent_params_ loaded /\
  estop_ r = estop_ loaded /\
  motors_speeds_ r = motors_speeds_ loaded /\
  (trimvalue_ r, left_trim_ r, right_trim_ r)
  = (trimvalue_ loaded, left_trim_ loaded, right_trim_ loaded) /\
  (device = "internal" /\ comm_base_ r = None \/
   device <> "internal" /\ exists c : comm, CommCan device [] = inr c /\ comm_base_ r = Some c).
Proof.
  unfold MecanumRobot_new, register_comm_base. cbn zeta.
  set (loaded := load_persistent_params h _).
  assert (Hnull : comm_base_ loaded = None).
  { subst loaded.
    destruct (load_persistent_params_frame h
                (constructed_members h file slots wr wb rl pid asc)) as (_ & _ & -> & _).
    reflexivity. }
  destruct (String.eqb _ "CAN"); [|discriminate].
  destruct (String.eqb_spec device "internal") as [Heq|Hne]; cbn.
  - intros [= <-]. cbn. repeat split. left. split; assumption.
  - destruct (CommCan device []) as [i|c] eqn:Hc; [discriminate|].
    intros [= <-]. cbn. repeat split. right. split; [exact Hne|].
    exists c. split; reflexivity.
Qed.

(** X4. A robot that has just been built does not move before its first
    command: its command timestamp is zero, so whatever the parameter file
    and the device, after any number of ticks at clock readings above the
    staleness threshold the four setpoints are neutral. *)
Theorem constructed_robot_stays_stopped file slots (device : string) wr wb rl pid asc r
    (times : list Z) :
  MecanumRobot_new h file slots device wr wb rl pid asc = inr r ->
  Forall (fun time_now => CONTROL_LOOP_TIMEOUT_MS_ h < time_now) times ->
  cmd_ts (robotstatus_ r) = 0 /\
  commanded r = zero_velocities /\
  setpoints_neutral h (motors_control_loop_ticks h times r).
Proof.
  intros Hnew Htimes.
  destruct (MecanumRobot_new_loaded _ _ _ _ _ _ _ _ _ Hnew) as (Hst & _ & _ & Hm & _).
  rewrite load_persistent_params_status in Hst.
  assert (Hts : cmd_ts (robotstatus_ r) = 0) by (rewrite Hst; reflexivity).
  split; [exact Hts|]. split.
  { unfold commanded. rewrite Hst. reflexivity. }
  destruct times as [|time_now later].
  - cbn. unfold setpoints_neutral. rewrite Hm.
    destruct (load_persistent_params_frame h
                (constructed_members h file slots wr wb rl pid asc)) as (_ & -> & _).
    cbn. repeat split; apply four_stores_same; auto.
  - apply stopped_ticks_neutral; [discriminate|]. right.
    rewrite Hts. eapply Forall_impl; [exact Htimes|].
    cbn. intros t Ht. lia.
Qed.

(** X9. How the constructor ends.  It throws exactly when the device is not
    ["internal"] and the transport's constructor throws, and then the same
    value: the -2 of an unsupported communication mode is never thrown,
    since the mode is always ["CAN"].  When it returns for a device other
    than ["internal"], [comm_base_] is the transport just opened and
    [is_connected] is that transport's answer. *)
Theorem constructor_outcome file slots (device : string) wr wb rl pid asc :
  (forall i : Z,
     MecanumRobot_new h file slots device wr wb rl pid asc = inl i <->
     device <> "internal" /\ CommCan device [] = inl i) /\
  (forall r,
     MecanumRobot_new h file slots device wr wb rl pid asc = inr r ->
     device <> "internal" ->
     exists c : comm,
       CommCan device [] = inr c /\ comm_base_ r = Some c /\
       is_connected r = Some (is_connected_dev c)).
Proof.
  split.
  - intros i. split.
    + unfold MecanumRobot_new, register_comm_base. cbn zeta.
      set (loaded := load_persistent_params h _).
      assert (Hcan : comm_type_ loaded = "CAN").
      { subst loaded. apply load_persistent_params_frame. }
      cbn. rewrite Hcan. cbn.
      destruct (String.eqb_spec device "internal") as [Heq|Hne]; cbn; [discriminate|].
      destruct (CommCan device []) as [j|c]; [|discriminate].
      intros [= ->]. split; [exact Hne|reflexivity].
    + intros [Hne Hthrow]. apply MecanumRobot_new_rethrows; assumption.
  - intros r Hnew Hne.
    destruct (MecanumRobot_new_loaded _ _ _ _ _ _ _ _ _ Hnew)
      as (_ & _ & _ & _ & _ & [[Heq _]|[_ (c & Hc & Hbase)]]); [contradiction|].
    exists c. split; [exact Hc|]. split; [exact Hbase|].
    unfold is_connected. rewrite Hbase. reflexivity.
Qed.

(** *** The trim manager, continued *)

Lemma update_drivetrim_store r delta :
  (trim_is_stored r -> trim_is_stored (update_drivetrim h delta r)) /\
  (within_correction h (trimvalue_ r + delta) ->
   trim_is_stored (update_drivetrim h delta r)) /\
  forall key : string, key <> "trim" ->
    persistent_params_ (update_drivetrim h delta r) !! key = persistent_params_ r !! key.
Proof.
  destruct (within_correction_dec h (trimvalue_ r + delta)) as [Hin|Hout].
  - destruct (update_drivetrim_accepted h r delta Hin) as (Ht & _ & _ & _ & Hp).
    cbn zeta in *.
    assert (Hs : trim_is_stored (update_drivetrim h delta r)).
    { unfold trim_is_stored. rewrite Hp, Ht. apply lookup_insert_eq. }
    split; [auto|]. split; [auto|].
    intros key Hkey. rewrite Hp. apply lookup_insert_ne. congruence.
  - rewrite (update_drivetrim_rejected h r delta Hout).
    split; [auto|]. split; [contradiction|]. reflexivity.
Qed.

(** X7. The parameter store follows the trim: along any sequence of
    adjustments from an object whose stored trim is its trim, the stored
    trim is the trim after every call, accepted or not; and no call touches
    a key other than ["trim"]. *)
Theorem stored_trim_follows_trim (deltas : list Q) r :
  trim_is_stored r ->
  Forall
    (fun r' =>
       trim_is_stored r' /\
       forall key : string, key <> "trim" ->
         persistent_params_ r' !! key = persistent_params_ r !! key)
    (adjust_trace h deltas r).
Proof.
  revert r. induction deltas as [|d ds IH]; intros r Hstored; cbn; [constructor|].
  destruct (update_drivetrim_store r d) as (Hkeep & _ & Hkeys).
  constructor.
  - split; [apply Hkeep, Hstored|exact Hkeys].
  - eapply Forall_impl; [apply IH, Hkeep, Hstored|].
    cbn. intros r' [Hs Hk]. split; [exact Hs|].
    intros key Hkey. rewrite (Hk key Hkey). apply Hkeys, Hkey.
Qed.

(** X8. A stored trim outside the bounds is dropped when the robot is built:
    the object has trim zero and both scales 1, and the parameter file keeps
    the value it had. *)
Theorem out_of_range_stored_trim_is_dropped file slots (device : string)
    wr wb rl pid asc r (v : Q) :
  file !! "trim" = Some v ->
  ~ within_correction h v ->
  MecanumRobot_new h file slots device wr wb rl pid asc = inr r ->
  trimvalue_ r = 0%Q /\ left_trim_ r = 1%Q /\ right_trim_ r = 1%Q /\
  persistent_params_ r = file.
Proof.
  intros Hfile Hout Hnew.
  destruct (MecanumRobot_new_loaded _ _ _ _ _ _ _ _ _ Hnew) as (_ & Hp & _ & _ & Htrim & _).
  assert (Hload : load_persistent_params h (constructed_members h file slots wr wb rl pid asc)
                  = constructed_members h file slots wr wb rl pid asc).
  { rewrite (load_persistent_params_present h
               (constructed_members h file slots wr wb rl pid asc) v Hfile).
    apply update_drivetrim_rejected. cbn. unfold trimvalue_default.
    intros Hin. apply Hout. unfold within_correction in *. lra. }
  rewrite Hload in Hp, Htrim. cbn in Hp, Htrim.
  injection Htrim as -> -> ->. repeat split. exact Hp.
Qed.


(** *** The telemetry demultiplexer, continued *)

Lemma unpack_comm_response_array (robotmsg : list Byte.byte) r :
  vescArray_ (unpack_comm_response h robotmsg r) = vescArray_ r.
Proof.
  unfold unpack_comm_response. cbn zeta.
  destruct (vesc.dataValid _); [|reflexivity].
  repeat match goal with
         | |- context [?a =? ?b] => destruct (a =? b)
         end; reflexivity.
Qed.

(** X11. Telemetry of different motors is independent: two messages whose
    motor identifiers differ can be delivered in either order, valid or not,
    known or not, and leave the same object. *)
Theorem telemetry_of_different_motors_commutes (msg1 msg2 : list Byte.byte) r :
  ids_distinct h ->
  vesc.vescId (vesc.parseReceivedMessage (vescArray_ r) msg1)
  <> vesc.vescId (vesc.parseReceivedMessage (vescArray_ r) msg2) ->
  unpack_comm_response h msg1 (unpack_comm_response h msg2 r)
  = unpack_comm_response h msg2 (unpack_comm_response h msg1 r).
Proof.
  intros (Hab & Hac & Had & Hbc & Hbd & Hcd) Hdiff.
  pose proof (unpack_comm_response_array msg1 r) as Ha1.
  pose proof (unpack_comm_response_array msg2 r) as Ha2.
  unfold unpack_comm_response at 1 3. cbn zeta. rewrite Ha1, Ha2.
  unfold unpack_comm_response.
  set (m1 := vesc.parseReceivedMessage (vescArray_ r) msg1) in *.
  set (m2 := vesc.parseReceivedMessage (vescArray_ r) msg2) in *.
  destruct (vesc.dataValid m1); destruct (vesc.dataValid m2); try reflexivity.
  destruct (Z.eqb_spec (vesc.vescId m1) (FRONT_LEFT h));
    [|destruct (Z.eqb_spec (vesc.vescId m1) (FRONT_RIGHT h));
      [|destruct (Z.eqb_spec (vesc.vescId m1) (BACK_LEFT h));
        [|destruct (Z.eqb_spec (vesc.vescId m1) (BACK_RIGHT h))]]];
    (destruct (Z.eqb_spec (vesc.vescId m2) (FRONT_LEFT h));
     [|destruct (Z.eqb_spec (vesc.vescId m2) (FRONT_RIGHT h));
       [|destruct (Z.eqb_spec (vesc.vescId m2) (BACK_LEFT h));
         [|destruct (Z.eqb_spec (vesc.vescId m2) (BACK_RIGHT h))]]]);
    try reflexivity; congruence.
Qed.

(** X12. For one motor the last valid message wins: a valid message
    overwrites whatever an earlier message with the same identifier has
    left. *)
Theorem last_telemetry_wins (msg1 msg2 : list Byte.byte) r :
  vesc.dataValid (vesc.parseReceivedMessage (vescArray_ r) msg2) = true ->
  vesc.vescId (vesc.parseReceivedMessage (vescArray_ r) msg1)
  = vesc.vescId (vesc.parseReceivedMessage (vescArray_ r) msg2) ->
  unpack_comm_response h msg2 (unpack_comm_response h msg1 r)
  = unpack_comm_response h msg2 r.
Proof.
  intros Hvalid Hsame.
  pose proof (unpack_comm_response_array msg1 r) as Ha1.
  unfold unpack_comm_response at 1 3. cbn zeta. rewrite Ha1, Hvalid.
  unfold unpack_comm_response. cbn zeta. rewrite Hsame.
  set (m1 := vesc.parseReceivedMessage (vescArray_ r) msg1) in *.
  set (m2 := vesc.parseReceivedMessage (vescArray_ r) msg2) in *.
  destruct (vesc.dataValid m1); [|reflexivity].
  destruct (vesc.vescId m2 =? FRONT_LEFT h); [reflexivity|].
  destruct (vesc.vescId m2 =? FRONT_RIGHT h); [reflexivity|].
  destruct (vesc.vescId m2 =? BACK_LEFT h); [reflexivity|].
  destruct (vesc.vescId m2 =? BACK_RIGHT h); reflexivity.
Qed.

(** X13. No inbound message, whatever it decodes to, changes the setpoints,
    the stored command and its timestamp, the measured velocities of the
    robot, the emergency stop, the trim, the parameter store, the controller
    or the transport. *)
Theorem telemetry_leaves_commands_alone (robotmsg : list Byte.byte) r :
  let r' := unpack_comm_response h robotmsg r in
  motors_speeds_ r' = motors_speeds_ r /\
  estop_ r' = estop_ r /\
  (cmd_linear_vel (robotstatus_ r'), cmd_angular_vel (robotstatus_ r'),
   cmd_trans_vel (robotstatus_ r'), cmd_ts (robotstatus_ r'))
  = (cmd_linear_vel (robotstatus_ r), cmd_angular_vel (robotstatus_ r),
     cmd_trans_vel (robotstatus_ r), cmd_ts (robotstatus_ r)) /\
  (linear_vel (robotstatus_ r'), trans_vel (robotstatus_ r'), angular_vel (robotstatus_ r'))
  = (linear_vel (robotstatus_ r), trans_vel (robotstatus_ r), angular_vel (robotstatus_ r)) /\
  (trimvalue_ r', left_trim_ r', right_trim_ r') = (trimvalue_ r, left_trim_ r, right_trim_ r) /\
  persistent_params_ r' = persistent_params_ r /\
  mecanum_control__ r' = mecanum_control__ r /\
  comm_base_ r' = comm_base_ r.
Proof.
  unfold unpack_comm_response. cbn zeta.
  destruct (vesc.dataValid _); [|repeat split].
  repeat match goal with
         | |- context [?a =? ?b] => destruct (a =? b)
         end; repeat split.
Qed.

(** *** The command dispatch loop, continued *)

(** The pass from the counter value [vid] on: it visits every integer from
    [vid] to [BACK_RIGHT]. *)
Lemma send_command_for_range (n : nat) : forall (fuel : nat) (vid : Z) r issued (dev : comm),
  0 <= vid ->
  Z.of_nat n = Z.max 0 (BACK_RIGHT h + 1 - vid) ->
  BACK_RIGHT h < 255 ->
  comm_base_ r = Some dev ->
  (n < fuel)%nat ->
  exists r' : MecanumRobot,
    send_command_for h fuel vid r issued
    = Some (r', issued ++ map (fun v => channel_command h v r) (seqZ vid (Z.of_nat n))) /\
    comm_base_ r'
    = Some (fold_left write_to_device
              (map (fun v => frame_of h v r) (seqZ vid (Z.of_nat n))) dev).
Proof.
  induction n as [|n IH]; intros fuel vid r issued dev Hvid Hn Hmax Hdev Hfuel;
    (destruct fuel as [|fuel]; [lia|]).
  - exists r. rewrite send_command_for_done by lia.
    rewrite seqZ_nil by lia. cbn. rewrite app_nil_r. split; [reflexivity|exact Hdev].
  - rewrite (send_command_for_step h fuel vid r issued dev) by (lia || assumption).
    assert (Hs : uint8_succ vid = vid + 1).
    { unfold uint8_succ. apply Z.mod_small. lia. }
    rewrite Hs.
    destruct (IH fuel (vid + 1)
                (set_comm_base
                   (Some (write_to_device dev
                            (vesc.buildCommandMessage (vescArray_ r)
                               (channel_command h vid r)))) r)
                (issued ++ [channel_command h vid r])
                (write_to_device dev
                   (vesc.buildCommandMessage (vescArray_ r) (channel_command h vid r))))
      as (r' & Hrun & Hbase); try lia; [reflexivity|].
    exists r'. rewrite Hrun, Hbase.
    rewrite (seqZ_cons vid (Z.of_nat (S n))) by lia.
    replace (Z.pred (Z.of_nat (S n))) with (Z.of_nat n) by lia.
    replace (Z.succ vid) with (vid + 1) by lia.
    cbn [map fold_left]. rewrite <- app_assoc. split; reflexivity.
Qed.

(** X14. One pass of the dispatch loop visits every motor identifier from
    [FRONT_LEFT] to [BACK_RIGHT] in increasing order, the enumerators being
    consecutive or not: with a transport, it encodes and writes exactly one
    command for each integer of that range, and none when the range is
    empty. *)
Theorem dispatch_covers_identifier_range r (dev : comm) (fuel : nat) :
  0 <= FRONT_LEFT h < 256 ->
  BACK_RIGHT h < 255 ->
  comm_base_ r = Some dev ->
  (Z.to_nat (BACK_RIGHT h + 1 - FRONT_LEFT h) < fuel)%nat ->
  exists r' : MecanumRobot,
    send_command_tick h fuel r
    = Some (r', map (fun v => channel_command h v r)
                  (seqZ (FRONT_LEFT h) (BACK_RIGHT h + 1 - FRONT_LEFT h))) /\
    comm_base_ r'
    = Some (fold_left write_to_device
              (map (fun v => frame_of h v r)
                 (seqZ (FRONT_LEFT h) (BACK_RIGHT h + 1 - FRONT_LEFT h))) dev).
Proof.
  intros Hfl Hbr Hdev Hfuel. unfold send_command_tick.
  rewrite (Z.mod_small (FRONT_LEFT h)) by lia.
  destruct (send_command_for_range (Z.to_nat (BACK_RIGHT h + 1 - FRONT_LEFT h))
              fuel (FRONT_LEFT h) r [] dev) as (r' & Hrun & Hbase);
    try lia; try assumption.
  exists r'. rewrite Hrun, Hbase.
  destruct (Z_le_gt_dec (BACK_RIGHT h + 1 - FRONT_LEFT h) 0) as [Hempty|Hsome].
  - rewrite !(seqZ_nil (FRONT_LEFT h)) by lia. split; reflexivity.
  - rewrite Z2Nat.id by lia. split; reflexivity.
Qed.

Lemma send_command_for_frame (fuel : nat) : forall (vid : Z) r issued r' out,
  send_command_for h fuel vid r issued = Some (r', out) ->
  robotstatus_ r' = robotstatus_ r /\
  motors_speeds_ r' = motors_speeds_ r /\
  estop_ r' = estop_ r /\
  (trimvalue_ r', left_trim_ r', right_trim_ r') = (trimvalue_ r, left_trim_ r, right_trim_ r) /\
  persistent_params_ r' = persistent_params_ r /\
  mecanum_control__ r' = mecanum_control__ r /\
  (exists sent, out = issued ++ sent /\
     Forall (fun c => c = channel_command h (vesc.cmd_vescId c) r) sent /\
     (comm_base_ r = None -> sent = [] /\ r' = r)).
Proof.
  induction fuel as [|fuel IH]; intros vid r issued r' out Hrun; [discriminate|].
  cbn in Hrun. destruct (vid <=? BACK_RIGHT h).
  - destruct (comm_base_ r) as [dev|] eqn:Hdev; [|discriminate].
    destruct (IH _ _ _ _ _ Hrun) as (Hs & Hm & He & Ht & Hp & Hc & sent & Hout & Hall & _).
    cbn in Hs, Hm, He, Ht, Hp, Hc. repeat (split; [assumption|]).
    exists (channel_command h vid r :: sent). split; [|split].
    + rewrite Hout, <- app_assoc. reflexivity.
    + constructor; [reflexivity|exact Hall].
    + discriminate.
  - injection Hrun as <- <-. repeat (split; [reflexivity|]).
    exists []. rewrite app_nil_r. repeat split. constructor.
Qed.

(** X15. Whatever the identifiers and the fuel, a pass of the dispatch loop
    that completes has changed nothing but the transport: status, setpoints,
    emergency stop, trim, store and controller are as before; every command
    it has encoded is the command of its own motor identifier, computed on
    the object as it was when the pass began; and without a transport a pass
    can only complete by visiting no motor at all. *)
Theorem dispatch_pass_only_writes_transport (fuel : nat) r r'
    (out : list vesc.vescChannelCommand) :
  send_command_tick h fuel r = Some (r', out) ->
  robotstatus_ r' = robotstatus_ r /\
  motors_speeds_ r' = motors_speeds_ r /\
  estop_ r' = estop_ r /\
  (trimvalue_ r', left_trim_ r', right_trim_ r') = (trimvalue_ r, left_trim_ r, right_trim_ r) /\
  persistent_params_ r' = persistent_params_ r /\
  mecanum_control__ r' = mecanum_control__ r /\
  Forall (fun c => c = channel_command h (vesc.cmd_vescId c) r) out /\
  (comm_base_ r = None -> out = [] /\ r' = r).
Proof.
  intros Hrun. unfold send_command_tick in Hrun.
  destruct (send_command_for_frame fuel _ r [] r' out Hrun)
    as (Hs & Hm & He & Ht & Hp & Hc & sent & Hout & Hall & Hnull).
  cbn in Hout. subst out.
  do 6 (split; [assumption|]). split; [exact Hall|exact Hnull].
Qed.

Lemma send_command_for_endless (fuel : nat) : forall (vid : Z) r issued,
  255 <= BACK_RIGHT h ->
  0 <= vid < 256 ->
  send_command_for h fuel vid r issued = None.
Proof.
  induction fuel as [|fuel IH]; intros vid r issued Hbr Hvid; [reflexivity|].
  cbn. destruct (Z.leb_spec vid (BACK_RIGHT h)) as [_|Hgt]; [|lia].
  destruct (comm_base_ r); [|reflexivity].
  apply IH; [exact Hbr|]. unfold uint8_succ. apply Z.mod_pos_bound. lia.
Qed.

(** X16. The loop counter is a [uint8_t]: if [BACK_RIGHT] were 255 or more,
    the test [vid <= BACK_RIGHT] would hold for every value of the counter
    and no pass of the dispatch loop would ever complete, whatever the
    fuel. *)
Theorem dispatch_needs_last_identifier_below_255 (fuel : nat) r :
  255 <= BACK_RIGHT h ->
  send_command_tick h fuel r = None.
Proof.
  intros Hbr. unfold send_command_tick.
  apply send_command_for_endless; [exact Hbr|].
  apply Z.mod_pos_bound. lia.
Qed.

(** X17. A stopped robot is never driven: after a tick that took the stop
    branch, the command built for each of the four wheels carries the
    neutral value, as a current command when the three measured velocities
    are neutral and as a duty command otherwise. *)
Theorem stopped_robot_gets_neutral_commands (time_now vid : Z) r :
  known_id h vid ->
  estop_ r = true \/ CONTROL_LOOP_TIMEOUT_MS_ h < time_now - cmd_ts (robotstatus_ r) ->
  let r' := motors_control_loop_tick h time_now r in
  vesc.cmd_vescId (channel_command h vid r') = vid /\
  vesc.commandValue (channel_command h vid r') = MOTOR_NEUTRAL_ h /\
  (vesc.commandType (channel_command h vid r') = vesc.CURRENT <->
   linear_vel (robotstatus_ r') == MOTOR_NEUTRAL_ h /\
   trans_vel (robotstatus_ r') == MOTOR_NEUTRAL_ h /\
   angular_vel (robotstatus_ r') == MOTOR_NEUTRAL_ h).
Proof.
  intros Hknown Hstop. cbn zeta.
  assert (Hcond : negb (estop_ r)
                  && (time_now - cmd_ts (robotstatus_ r) <=? CONTROL_LOOP_TIMEOUT_MS_ h)
                  = false).
  { destruct Hstop; [apply stop_condition_estop|apply stop_condition_stale]; assumption. }
  destruct (motors_control_loop_stop h time_now r Hcond) as [(Hfl & Hfr & Hbl & Hbr) _].
  set (r' := motors_control_loop_tick h time_now r) in *.
  assert (Hv : motors_speeds_ r' vid = MOTOR_NEUTRAL_ h).
  { destruct Hknown as [Hk|[Hk|[Hk|Hk]]]; rewrite Hk; assumption. }
  unfold channel_command, useCurrentControl. cbn. rewrite Hv, Qeq_bool_refl. cbn.
  split; [reflexivity|]. split.
  - match goal with |- (if ?b then _ else _) = _ => destruct b end; reflexivity.
  - rewrite <- !Qeq_bool_iff.
    destruct (Qeq_bool (linear_vel (robotstatus_ r')) (MOTOR_NEUTRAL_ h));
      destruct (Qeq_bool (trans_vel (robotstatus_ r')) (MOTOR_NEUTRAL_ h));
      destruct (Qeq_bool (angular_vel (robotstatus_ r')) (MOTOR_NEUTRAL_ h));
      cbn; split; try tauto; try discriminate; intros (? & ? & ?); discriminate.
Qed.

(** *** The emergency stop *)

(** X18. [send_estop] writes the flag and nothing else, so the stop is not
    latched: the tick after [send_estop(true)] gives neutral setpoints, and
    the tick after [send_estop(false)] sets the setpoints to the controller's
    output for the command fields that are still stored, without a new
    command, as long as that command is not stale. *)
Theorem estop_release_resumes_stored_command (time_now : Z) r :
  status_request (send_estop true r) = status_request r /\
  status_request (send_estop false r) = status_request r /\
  motors_speeds_ (send_estop false r) = motors_speeds_ r /\
  setpoints_neutral h (motors_control_loop_tick h time_now (send_estop true r)) /\
  (ids_distinct h ->
   time_now - cmd_ts (robotstatus_ r) <= CONTROL_LOOP_TIMEOUT_MS_ h ->
   let output :=
     fst (Control.runMotionControl (mecanum_control__ r)
            {| Control.linear_velocity := cmd_linear_vel (robotstatus_ r);
               Control.trans_velocity := cmd_trans_vel (robotstatus_ r);
               Control.angular_velocity := cmd_angular_vel (robotstatus_ r) |}
            {| Control.fl := 0; Control.fr := 0; Control.rl := 0; Control.rr := 0 |}
            {| Control.fl := motor1_rpm (robotstatus_ r);
               Control.fr := motor2_rpm (robotstatus_ r);
               Control.rl := motor3_rpm (robotstatus_ r);
               Control.rr := motor4_rpm (robotstatus_ r) |}) in
   motors_speeds_ (motors_control_loop_tick h time_now (send_estop false r)) (FRONT_LEFT h)
   = Control.fl output /\
   motors_speeds_ (motors_control_loop_tick h time_now (send_estop false r)) (FRONT_RIGHT h)
   = Control.fr output /\
   motors_speeds_ (motors_control_loop_tick h time_now (send_estop false r)) (BACK_LEFT h)
   = Control.rl output /\
   motors_speeds_ (motors_control_loop_tick h time_now (send_estop false r)) (BACK_RIGHT h)
   = Control.rr output).
Proof.
  split; [reflexivity|]. split; [reflexivity|]. split; [reflexivity|]. split.
  - apply (motors_control_loop_stop h time_now (send_estop true r)).
    apply stop_condition_estop. reflexivity.
  - intros Hids Hfresh.
    apply (motors_control_loop_run h time_now (send_estop false r) Hids).
    cbn. apply Z.leb_le. exact Hfresh.
Qed.

End Further.

(** ** Runs of the model on the reference platform *)

(** A command [(1, 0, 0)] issued at 0 and read at 1500 ms: the setpoints are
    neutral; read at 500 ms, they are the mixer's output. *)
Example stale_command_stops :
  map (motors_speeds_
         (motors_control_loop_tick Reference.header 1500
            (Reference.robot 0 (set_cmd 1 0 0 0 robotData_zero) false (fun _ => 0.3%Q))))
    [1; 2; 3; 4]
  = [0; 0; 0; 0]%Q.
Proof. reflexivity. Qed.

Example fresh_command_runs :
  map (fun id =>
         Qred (motors_speeds_
                 (motors_control_loop_tick Reference.header 500
                    (Reference.robot 0 (set_cmd 1 0 0 0 robotData_zero) false
                       (fun _ => 0.3%Q))) id))
    [1; 2; 3; 4]
  = [1; 1; 1; 1]%Q.
Proof. reflexivity. Qed.

(** The emergency stop wins over a command that is 500 ms old. *)
Example estop_stops :
  map (motors_speeds_
         (motors_control_loop_tick Reference.header 500
            (Reference.robot 0 (set_cmd 1 0 0 0 robotData_zero) true (fun _ => 0.3%Q))))
    [1; 2; 3; 4]
  = [0; 0; 0; 0]%Q.
Proof. reflexivity. Qed.

(** At rest every wheel is held by current; with one wheel driven, that
    wheel alone gets a duty cycle. *)
Example rest_holds_every_wheel :
  option_map (fun out => map vesc.commandType (snd out))
    (send_command_tick Reference.header 5
       (Reference.robot 0 robotData_zero false (fun _ => 0%Q)))
  = Some [vesc.CURRENT; vesc.CURRENT; vesc.CURRENT; vesc.CURRENT].
Proof. reflexivity. Qed.

Example driven_wheel_gets_duty :
  option_map (fun out => map vesc.commandType (snd out))
    (send_command_tick Reference.header 5
       (Reference.robot 0 robotData_zero false (<[3 := 0.2%Q]> (fun _ => 0%Q))))
  = Some [vesc.CURRENT; vesc.CURRENT; vesc.DUTY; vesc.CURRENT].
Proof. reflexivity. Qed.

(** The bus of the reference platform has seen the four frames. *)
Example four_frames_written :
  option_map (fun out => comm_base_ (fst out))
    (send_command_tick Reference.header 5
       (Reference.robot 0 robotData_zero false (fun _ => 0%Q)))
  = Some (Some [[Byte.x01; Byte.x01]; [Byte.x02; Byte.x01];
                [Byte.x03; Byte.x01]; [Byte.x04; Byte.x01]]).
Proof. reflexivity. Qed.

(** Construction on a device that cannot be opened fails with the
    transport's exception. *)
Example unopened_device_throws :
  MecanumRobot_new (MC := Reference.mixer) (VA := Reference.frames)
    (CB := Reference.bus) Reference.header ∅ (fun _ => 0%Q)
    "" 0.1 0.4 0.3 tt tt
  = inl (-1).
Proof. reflexivity. Qed.

(** Construction on ["internal"] succeeds with a null transport. *)
Example internal_device_has_no_transport :
  match MecanumRobot_new (MC := Reference.mixer) (VA := Reference.frames)
    (CB := Reference.bus) Reference.header ∅ (fun _ => 0%Q)
          "internal" 0.1 0.4 0.3 tt tt with
  | inr r => comm_base_ r = None /\ send_command_tick Reference.header 5 r = None
  | inl _ => False
  end.
Proof. split; reflexivity. Qed.

(** A stored trim of 0.2 is loaded by the constructor. *)
Example stored_trim_is_loaded :
  match MecanumRobot_new (MC := Reference.mixer) (VA := Reference.frames)
    (CB := Reference.bus) Reference.header
          (<["trim" := 0.2%Q]> ∅) (fun _ => 0%Q) "can0" 0.1 0.4 0.3 tt tt with
  | inr r => trimvalue_ r == 0.2 /\ left_trim_ r == 1 /\ right_trim_ r == 0.8
  | inl _ => False
  end.
Proof. vm_compute. repeat split. Qed.

(** [binary64] against the reference specification of binary64 arithmetic:
    a decimal literal, a sum and a difference. *)
Example binary64_agrees_on_literal :
  spec_float_value (spec_double 45 100) = binary64 0.45.
Proof. vm_compute. reflexivity. Qed.

Example binary64_agrees_on_sum :
  spec_float_value (SFadd 53 1024 (spec_double 45 100) (spec_double 4 100))
  = binary64 (spec_float_value (spec_double 45 100) + spec_float_value (spec_double 4 100)).
Proof. vm_compute. reflexivity. Qed.

Example binary64_agrees_on_difference :
  spec_float_value (SFsub 53 1024 (spec_double 1 1) (spec_double 49 100))
  = binary64 (1 - spec_float_value (spec_double 49 100)).
Proof. vm_compute. reflexivity. Qed.

Example binary64_agrees_on_inexact_sum :
  spec_float_value (SFadd 53 1024 (spec_double 1 10) (spec_double 2 10))
  = binary64 (binary64 0.1 + binary64 0.2)
  /\ binary64 (binary64 0.1 + binary64 0.2) = (1351079888211149 # 2 ^ 52)%Q.
Proof. split; vm_compute; reflexivity. Qed.

(** A sum that rounds up to the bound is rejected: from trim 0.25 the delta
    [0.25 - 2^-55] gives the candidate 0.5. *)
Example sum_rounded_to_the_bound_is_rejected :
  binary64 (0.25 + (0.25 - (1 # 2 ^ 55))) = (1 # 2)%Q /\
  update_drivetrim_binary64 Reference.header (0.25 - (1 # 2 ^ 55))
    (Reference.robot 0.25 robotData_zero false (fun _ => 0%Q))
  = Reference.robot 0.25 robotData_zero false (fun _ => 0%Q).
Proof. split; vm_compute; reflexivity. Qed.

(** An adjustment and its opposite do not give back the trim: from the
    double 0.1, the doubles 0.2 and -0.2 leave 0.10000000000000003 and the
    right scale 0.8999999999999999. *)
Example opposite_adjustment_is_rounded :
  trimvalue_
    (update_drivetrim_binary64 Reference.header (binary64 (-0.2))
       (update_drivetrim_binary64 Reference.header (binary64 0.2)
          (Reference.robot (binary64 0.1) robotData_zero false (fun _ => 0%Q))))
  = (1801439850948199 # 2 ^ 54)%Q /\
  right_trim_
    (update_drivetrim_binary64 Reference.header (binary64 (-0.2))
       (update_drivetrim_binary64 Reference.header (binary64 0.2)
          (Reference.robot (binary64 0.1) robotData_zero false (fun _ => 0%Q))))
  = (2026619832316723 # 2 ^ 51)%Q.
Proof. split; vm_compute; reflexivity. Qed.

(** ** The properties on the reference platform *)

(** C2 on the reference robot: from the double 0.45, the double 0.04 is
    committed. *)
Lemma adjust_trim_commits_or_rejects_witness :
  within_correction Reference.header
    (binary64
       (trimvalue_ (Reference.robot (binary64 0.45) robotData_zero false (fun _ => 0%Q))
        + binary64 0.04)) /\
  trimvalue_
    (update_drivetrim_binary64 Reference.header (binary64 0.04)
       (Reference.robot (binary64 0.45) robotData_zero false (fun _ => 0%Q)))
  = binary64 (binary64 0.45 + binary64 0.04).
Proof.
  assert (Hin : within_correction Reference.header
                  (binary64
                     (trimvalue_
                        (Reference.robot (binary64 0.45) robotData_zero false
                           (fun _ => 0%Q))
                      + binary64 0.04))).
  { unfold within_correction. split; vm_compute; reflexivity. }
  split; [exact Hin|].
  apply (proj1 (proj1 (adjust_trim_commits_or_rejects Reference.header
                         (Reference.robot (binary64 0.45) robotData_zero false
                            (fun _ => 0%Q))
                         (binary64 0.04)) Hin)).
Defined.

(** C3 on the reference robot: rejected and accepted calls, one of them
    next to the bound. *)
Lemma adjust_trim_sequence_invariant_witness :
  (0 < MAX_CURVATURE_CORRECTION_ Reference.header)%Q /\
  (MAX_CURVATURE_CORRECTION_ Reference.header <= 1)%Q /\
  trimvalue_ (Reference.robot 0 robotData_zero false (fun _ => 0%Q)) == 0 /\
  Forall (fun r => within_correction Reference.header (trimvalue_ r))
    (adjust_trace_binary64 Reference.header
       [binary64 0.6; binary64 0.25; 0.25 - (1 # 2 ^ 55); binary64 (-0.9); binary64 (-0.5)]%Q
       (Reference.robot 0 robotData_zero false (fun _ => 0%Q))).
Proof.
  assert (Hpos : (0 < MAX_CURVATURE_CORRECTION_ Reference.header)%Q) by reflexivity.
  assert (Hmax : (MAX_CURVATURE_CORRECTION_ Reference.header <= 1)%Q)
    by (cbn; discriminate).
  assert (Hzero : trimvalue_ (Reference.robot 0 robotData_zero false (fun _ => 0%Q)) == 0)
    by reflexivity.
  repeat split; try assumption.
  apply (adjust_trim_sequence_invariant Reference.header
           [binary64 0.6; binary64 0.25; 0.25 - (1 # 2 ^ 55); binary64 (-0.9);
            binary64 (-0.5)]%Q
           (Reference.robot 0 robotData_zero false (fun _ => 0%Q)) Hpos Hmax Hzero).
Defined.

(** C1 on the reference robot, a command [(1, 0, 0)] stamped 5000: at time
    6001 the command is 1001 ms old and the setpoints are neutral. *)
Lemma motion_loop_safety_stop_witness :
  CONTROL_LOOP_TIMEOUT_MS_ Reference.header = 1000 /\
  6001 - cmd_ts (robotstatus_ (Reference.robot 0 Reference.moving false (fun _ => 0.3%Q)))
  = 1001 /\
  setpoints_neutral Reference.header
    (motors_control_loop_tick Reference.header 6001
       (Reference.robot 0 Reference.moving false (fun _ => 0.3%Q))).
Proof.
  split; [reflexivity|]. split; [reflexivity|].
  apply (proj1 (proj2 (proj2
           (motion_loop_safety_stop Reference.header 6001
              (Reference.robot 0 Reference.moving false (fun _ => 0.3%Q)))))).
  - reflexivity.
  - reflexivity.
Defined.


(** C5 on the reference robot at rest: four commands, in the order of the
    identifiers 1, 2, 3, 4, and their four frames on the bus. *)
Lemma dispatch_selects_hold_mode_witness :
  ids_consecutive Reference.header /\
  comm_base_ (Reference.robot 0 robotData_zero false (fun _ => 0%Q)) = Some [] /\
  (5 <= 5)%nat /\
  exists r' : MecanumRobot,
    option_map snd
      (send_command_tick Reference.header 5
         (Reference.robot 0 robotData_zero false (fun _ => 0%Q)))
    = Some (map (fun vid =>
                   {| vesc.cmd_vescId := vid; vesc.commandType := vesc.CURRENT;
                      vesc.commandValue := 0 |})
              [1; 2; 3; 4]) /\
    option_map fst
      (send_command_tick Reference.header 5
         (Reference.robot 0 robotData_zero false (fun _ => 0%Q))) = Some r' /\
    comm_base_ r'
    = Some [[Byte.x01; Byte.x01]; [Byte.x02; Byte.x01];
            [Byte.x03; Byte.x01]; [Byte.x04; Byte.x01]].
Proof.
  assert (Hids : ids_consecutive Reference.header).
  { unfold ids_consecutive. cbn. lia. }
  split; [exact Hids|]. split; [reflexivity|]. split; [lia|].
  destruct (proj2 (proj2 (proj2
             (dispatch_selects_hold_mode Reference.header
                (Reference.robot 0 robotData_zero false (fun _ => 0%Q)) [])))
             Hids eq_refl 5%nat (le_n 5)) as (r' & Hrun & Hbase & _).
  exists r'. rewrite Hrun. cbn [option_map fst snd].
  split; [reflexivity|]. split; [reflexivity|].
  rewrite Hbase. reflexivity.
Defined.

(** C6 on the reference robot: a valid frame of motor 2. *)
Lemma telemetry_routed_by_identifier_witness :
  ids_distinct Reference.header /\
  vesc.dataValid
    (vesc.parseReceivedMessage
       (vescArray_ (Reference.robot 0 robotData_zero false (fun _ => 0%Q)))
       [Byte.x02; Byte.x07; Byte.x03]) = true /\
  vesc.vescId
    (vesc.parseReceivedMessage
       (vescArray_ (Reference.robot 0 robotData_zero false (fun _ => 0%Q)))
       [Byte.x02; Byte.x07; Byte.x03]) = FRONT_RIGHT Reference.header /\
  (motor2_rpm
     (robotstatus_
        (unpack_comm_response Reference.header [Byte.x02; Byte.x07; Byte.x03]
           (Reference.robot 0 robotData_zero false (fun _ => 0%Q)))),
   motor2_id
     (robotstatus_
        (unpack_comm_response Reference.header [Byte.x02; Byte.x07; Byte.x03]
           (Reference.robot 0 robotData_zero false (fun _ => 0%Q)))),
   motor2_current
     (robotstatus_
        (unpack_comm_response Reference.header [Byte.x02; Byte.x07; Byte.x03]
           (Reference.robot 0 robotData_zero false (fun _ => 0%Q)))))
  = (inject_Z 7, 2, inject_Z 3).
Proof.
  assert (Hids : ids_distinct Reference.header).
  { unfold ids_distinct. cbn. lia. }
  split; [exact Hids|]. split; [reflexivity|]. split; [reflexivity|].
  apply (proj1 (proj2 (proj1 (proj2 (proj1
           (telemetry_routed_by_identifier Reference.header
              [Byte.x02; Byte.x07; Byte.x03]
              (Reference.robot 0 robotData_zero false (fun _ => 0%Q)))
           Hids eq_refl)) eq_refl))).
Defined.

(** C7 on the reference robot: the array [{1, 0.2, 9, 0.5}] at time 42. *)
Lemma velocity_command_overwrites_witness :
  [1; 0.2; 9; 0.5]%Q !! 0%nat = Some 1%Q /\
  [1; 0.2; 9; 0.5]%Q !! 1%nat = Some 0.2%Q /\
  [1; 0.2; 9; 0.5]%Q !! 3%nat = Some 0.5%Q /\
  exists r' : MecanumRobot,
    set_robot_velocity [1; 0.2; 9; 0.5]%Q 42
      (Reference.robot 0 robotData_zero false (fun _ => 0%Q)) = Some r' /\
    cmd_trans_vel (robotstatus_ r') = 0.5%Q /\
    cmd_ts (robotstatus_ r') = 42.
Proof.
  split; [reflexivity|]. split; [reflexivity|]. split; [reflexivity|].
  destruct (velocity_command_overwrites [1; 0.2; 9; 0.5]%Q 42
              (Reference.robot 0 robotData_zero false (fun _ => 0%Q))
              1%Q 0.2%Q 0.5%Q eq_refl eq_refl eq_refl)
    as (r' & Hcall & _ & _ & Htrans & Hts & _).
  exists r'. split; [exact Hcall|]. split; [exact Htrans|exact Hts].
Defined.

(** C9 on the reference platform: the robot built on the device ["can0"]
    with an empty parameter file. *)
Lemma constructed_robot_is_stopped_witness :
  exists r : @MecanumRobot Reference.mixer Reference.frames Reference.bus,
    MecanumRobot_new (MC := Reference.mixer) (VA := Reference.frames)
    (CB := Reference.bus) Reference.header ∅ (fun _ => 0.7%Q)
      "can0" 0.1 0.4 0.3 tt tt = inr r /\
    estop_ r = false /\ setpoints_neutral Reference.header r.
Proof.
  eexists. split.
  - reflexivity.
  - apply (constructed_robot_is_stopped (MC := Reference.mixer) Reference.header ∅
             (fun _ => 0.7%Q) "can0" 0.1 0.4 0.3 tt tt).
    reflexivity.
Defined.

(** ** The further properties on the reference platform *)

(** X1: the slot of identifier 9 is not one of the four. *)
Lemma motion_tick_writes_only_setpoints_and_estimate_witness :
  ~ known_id Reference.header 9 /\
  motors_speeds_
    (motors_control_loop_tick Reference.header 5500
       (Reference.robot 0 Reference.moving false (fun _ => 0.3%Q))) 9
  = 0.3%Q.
Proof.
  assert (Hother : ~ known_id Reference.header 9).
  { unfold known_id. cbn. lia. }
  split; [exact Hother|].
  apply (proj2 (proj2 (proj2 (proj2 (proj2 (proj2 (proj2 (proj2 (proj2
           (motion_tick_writes_only_setpoints_and_estimate Reference.header 5500
              (Reference.robot 0 Reference.moving false (fun _ => 0.3%Q))))))))))) 9 Hother).
Defined.

(** X2: two ticks of a robot with the stop set and a fresh command. *)
Lemma estop_holds_across_ticks_witness :
  estop_ (Reference.robot 0 Reference.moving true (fun _ => 0.3%Q)) = true /\
  [5100; 5130] <> [] /\
  setpoints_neutral Reference.header
    (motors_control_loop_ticks Reference.header [5100; 5130]
       (Reference.robot 0 Reference.moving true (fun _ => 0.3%Q))).
Proof.
  split; [reflexivity|]. split; [discriminate|].
  apply (estop_holds_across_ticks Reference.header [5100; 5130]
           (Reference.robot 0 Reference.moving true (fun _ => 0.3%Q)) eq_refl).
  discriminate.
Defined.


(** X4: the robot built on ["can0"], ticked at 2000 and 2030. *)
Lemma constructed_robot_stays_stopped_witness :
  exists r : @MecanumRobot Reference.mixer Reference.frames Reference.bus,
    MecanumRobot_new (MC := Reference.mixer) Reference.header ∅ (fun _ => 0.7%Q)
      "can0" 0.1 0.4 0.3 tt tt = inr r /\
    Forall (fun time_now => CONTROL_LOOP_TIMEOUT_MS_ Reference.header < time_now)
      [2000; 2030] /\
    cmd_ts (robotstatus_ r) = 0 /\
    commanded r = zero_velocities /\
    setpoints_neutral Reference.header
      (motors_control_loop_ticks Reference.header [2000; 2030] r).
Proof.
  assert (Htimes : Forall (fun time_now => CONTROL_LOOP_TIMEOUT_MS_ Reference.header < time_now)
                     [2000; 2030]).
  { repeat constructor. }
  eexists. split; [reflexivity|]. split; [exact Htimes|].
  apply (constructed_robot_stays_stopped (MC := Reference.mixer) Reference.header ∅
           (fun _ => 0.7%Q) "can0" 0.1 0.4 0.3 tt tt); [reflexivity|exact Htimes].
Defined.

(** X7: after a first accepted adjustment the store holds the trim; three
    more calls keep it so. *)
Lemma stored_trim_follows_trim_witness :
  trim_is_stored
    (update_drivetrim Reference.header 0.1
       (Reference.robot 0 robotData_zero false (fun _ => 0%Q))) /\
  Forall (fun r' => trim_is_stored r')
    (adjust_trace Reference.header [0.2; 0.9; -0.4]%Q
       (update_drivetrim Reference.header 0.1
          (Reference.robot 0 robotData_zero false (fun _ => 0%Q)))).
Proof.
  assert (H1 : trim_is_stored
                 (update_drivetrim Reference.header 0.1
                    (Reference.robot 0 robotData_zero false (fun _ => 0%Q)))).
  { reflexivity. }
  split; [exact H1|].
  eapply Forall_impl;
    [exact (stored_trim_follows_trim Reference.header [0.2; 0.9; -0.4]%Q _ H1)|].
  intros r' [Hs _]. exact Hs.
Defined.

(** X8: a parameter file with trim 0.7. *)
Lemma out_of_range_stored_trim_is_dropped_witness :
  exists r : @MecanumRobot Reference.mixer Reference.frames Reference.bus,
    (<["trim" := 0.7%Q]> ∅ : gmap string Q) !! "trim" = Some 0.7%Q /\
    ~ within_correction Reference.header 0.7 /\
    MecanumRobot_new (MC := Reference.mixer) Reference.header (<["trim" := 0.7%Q]> ∅)
      (fun _ => 0%Q) "can0" 0.1 0.4 0.3 tt tt = inr r /\
    trimvalue_ r = 0%Q /\ left_trim_ r = 1%Q /\ right_trim_ r = 1%Q /\
    persistent_params_ r = <["trim" := 0.7%Q]> ∅.
Proof.
  assert (Hfile : (<["trim" := 0.7%Q]> ∅ : gmap string Q) !! "trim" = Some 0.7%Q)
    by reflexivity.
  assert (Hout : ~ within_correction Reference.header 0.7).
  { intros [_ Hhi]. vm_compute in Hhi. discriminate. }
  eexists. split; [exact Hfile|]. split; [exact Hout|]. split; [reflexivity|].
  apply (out_of_range_stored_trim_is_dropped (MC := Reference.mixer) Reference.header
           (<["trim" := 0.7%Q]> ∅) (fun _ => 0%Q) "can0" 0.1 0.4 0.3 tt tt _ 0.7
           Hfile Hout).
  reflexivity.
Defined.

(** X9: the device with the empty name cannot be opened. *)
Lemma constructor_outcome_witness :
  "" <> "internal" /\
  CommCan (CommBase := Reference.bus) "" [] = inl (-1) /\
  MecanumRobot_new (MC := Reference.mixer) (VA := Reference.frames)
    (CB := Reference.bus) Reference.header ∅
    (fun _ => 0%Q) "" 0.1 0.4 0.3 tt tt = inl (-1).
Proof.
  assert (Hne : "" <> "internal") by discriminate.
  assert (Hthrow : CommCan (CommBase := Reference.bus) "" [] = inl (-1)) by reflexivity.
  split; [exact Hne|]. split; [exact Hthrow|].
  apply (proj2 (proj1 (constructor_outcome (MC := Reference.mixer) (VA := Reference.frames)
                         (CB := Reference.bus) Reference.header ∅ (fun _ => 0%Q) "" 0.1 0.4 0.3 tt tt) (-1))
           (conj Hne Hthrow)).
Defined.


(** X11: a frame of motor 1 and a frame of motor 2. *)
Lemma telemetry_of_different_motors_commutes_witness :
  ids_distinct Reference.header /\
  vesc.vescId
    (vesc.parseReceivedMessage
       (vescArray_ (Reference.robot 0 robotData_zero false (fun _ => 0%Q)))
       [Byte.x01; Byte.x05; Byte.x02])
  <> vesc.vescId
       (vesc.parseReceivedMessage
          (vescArray_ (Reference.robot 0 robotData_zero false (fun _ => 0%Q)))
          [Byte.x02; Byte.x07; Byte.x03]) /\
  unpack_comm_response Reference.header [Byte.x01; Byte.x05; Byte.x02]
    (unpack_comm_response Reference.header [Byte.x02; Byte.x07; Byte.x03]
       (Reference.robot 0 robotData_zero false (fun _ => 0%Q)))
  = unpack_comm_response Reference.header [Byte.x02; Byte.x07; Byte.x03]
      (unpack_comm_response Reference.header [Byte.x01; Byte.x05; Byte.x02]
         (Reference.robot 0 robotData_zero false (fun _ => 0%Q))).
Proof.
  assert (Hids : ids_distinct Reference.header).
  { unfold ids_distinct. cbn. lia. }
  assert (Hdiff : vesc.vescId
                    (vesc.parseReceivedMessage
                       (vescArray_ (Reference.robot 0 robotData_zero false (fun _ => 0%Q)))
                       [Byte.x01; Byte.x05; Byte.x02])
                  <> vesc.vescId
                       (vesc.parseReceivedMessage
                          (vescArray_ (Reference.robot 0 robotData_zero false (fun _ => 0%Q)))
                          [Byte.x02; Byte.x07; Byte.x03])).
  { cbn. discriminate. }
  split; [exact Hids|]. split; [exact Hdiff|].
  apply (telemetry_of_different_motors_commutes Reference.header
           [Byte.x01; Byte.x05; Byte.x02] [Byte.x02; Byte.x07; Byte.x03]
           (Reference.robot 0 robotData_zero false (fun _ => 0%Q)) Hids Hdiff).
Defined.

(** X12: two frames of motor 2. *)
Lemma last_telemetry_wins_witness :
  vesc.dataValid
    (vesc.parseReceivedMessage
       (vescArray_ (Reference.robot 0 robotData_zero false (fun _ => 0%Q)))
       [Byte.x02; Byte.x07; Byte.x03]) = true /\
  unpack_comm_response Reference.header [Byte.x02; Byte.x07; Byte.x03]
    (unpack_comm_response Reference.header [Byte.x02; Byte.x05; Byte.x01]
       (Reference.robot 0 robotData_zero false (fun _ => 0%Q)))
  = unpack_comm_response Reference.header [Byte.x02; Byte.x07; Byte.x03]
      (Reference.robot 0 robotData_zero false (fun _ => 0%Q)).
Proof.
  split; [reflexivity|].
  apply (last_telemetry_wins Reference.header
           [Byte.x02; Byte.x05; Byte.x01] [Byte.x02; Byte.x07; Byte.x03]
           (Reference.robot 0 robotData_zero false (fun _ => 0%Q)));
    reflexivity.
Defined.

(** X14: the identifiers 1 to 4 of the reference header. *)
Lemma dispatch_covers_identifier_range_witness :
  0 <= FRONT_LEFT Reference.header < 256 /\
  BACK_RIGHT Reference.header < 255 /\
  comm_base_ (Reference.robot 0 robotData_zero false (fun _ => 0%Q)) = Some [] /\
  exists r' : MecanumRobot,
    send_command_tick Reference.header 5
      (Reference.robot 0 robotData_zero false (fun _ => 0%Q))
    = Some (r', map (fun v =>
                       channel_command Reference.header v
                         (Reference.robot 0 robotData_zero false (fun _ => 0%Q)))
                  (seqZ 1 4)).
Proof.
  assert (Hfl : 0 <= FRONT_LEFT Reference.header < 256) by (cbn; lia).
  assert (Hbr : BACK_RIGHT Reference.header < 255) by (cbn; lia).
  split; [exact Hfl|]. split; [exact Hbr|]. split; [reflexivity|].
  destruct (dispatch_covers_identifier_range Reference.header
              (Reference.robot 0 robotData_zero false (fun _ => 0%Q)) [] 5%nat
              Hfl Hbr eq_refl) as (r' & Hrun & _).
  { cbn. lia. }
  exists r'. exact Hrun.
Defined.

(** X15: a pass on the reference robot. *)
Lemma dispatch_pass_only_writes_transport_witness :
  exists (r' : MecanumRobot) (out : list vesc.vescChannelCommand),
    send_command_tick Reference.header 5
      (Reference.robot 0 Reference.moving false (fun _ => 0.3%Q)) = Some (r', out) /\
    robotstatus_ r' = Reference.moving /\
    estop_ r' = false.
Proof.
  eexists. eexists. split; [reflexivity|].
  match goal with
  | |- robotstatus_ ?a = _ /\ _ =>
      destruct (dispatch_pass_only_writes_transport Reference.header 5
                  (Reference.robot 0 Reference.moving false (fun _ => 0.3%Q)) a _ eq_refl)
        as (Hs & _ & He & _)
  end.
  split; [exact Hs|exact He].
Defined.

(** X16: the header with [BACK_RIGHT = 255]. *)
Lemma dispatch_needs_last_identifier_below_255_witness :
  255 <= BACK_RIGHT Reference.wide_header /\
  send_command_tick Reference.wide_header 1000
    (Reference.robot 0 robotData_zero false (fun _ => 0%Q)) = None.
Proof.
  assert (Hbr : 255 <= BACK_RIGHT Reference.wide_header) by (cbn; lia).
  split; [exact Hbr|].
  apply (dispatch_needs_last_identifier_below_255 Reference.wide_header 1000
           (Reference.robot 0 robotData_zero false (fun _ => 0%Q)) Hbr).
Defined.

(** X17: the stopped robot with its wheels still turning, back-left wheel. *)
Lemma stopped_robot_gets_neutral_commands_witness :
  known_id Reference.header 3 /\
  estop_ (Reference.robot 0 Reference.moving true (fun _ => 0.3%Q)) = true /\
  vesc.commandValue
    (channel_command Reference.header 3
       (motors_control_loop_tick Reference.header 5100
          (Reference.robot 0 Reference.moving true (fun _ => 0.3%Q))))
  = MOTOR_NEUTRAL_ Reference.header.
Proof.
  assert (Hknown : known_id Reference.header 3).
  { unfold known_id. cbn. lia. }
  split; [exact Hknown|]. split; [reflexivity|].
  apply (proj1 (proj2
           (stopped_robot_gets_neutral_commands Reference.header 5100 3
              (Reference.robot 0 Reference.moving true (fun _ => 0.3%Q))
              Hknown (or_introl eq_refl)))).
Defined.

(** X18: the stop released 100 ms after the command. *)
Lemma estop_release_resumes_stored_command_witness :
  ids_distinct Reference.header /\
  5100 - cmd_ts (robotstatus_ (Reference.robot 0 Reference.moving true (fun _ => 0.3%Q)))
  <= CONTROL_LOOP_TIMEOUT_MS_ Reference.header /\
  Qred (motors_speeds_
          (motors_control_loop_tick Reference.header 5100
             (send_estop false
                (Reference.robot 0 Reference.moving true (fun _ => 0.3%Q))))
          (FRONT_LEFT Reference.header))
  = 1%Q.
Proof.
  assert (Hids : ids_distinct Reference.header).
  { unfold ids_distinct. cbn. lia. }
  assert (Hfresh : 5100 - cmd_ts (robotstatus_
                                   (Reference.robot 0 Reference.moving true (fun _ => 0.3%Q)))
                   <= CONTROL_LOOP_TIMEOUT_MS_ Reference.header).
  { cbn. lia. }
  split; [exact Hids|]. split; [exact Hfresh|].
  destruct (proj2 (proj2 (proj2 (proj2
             (estop_release_resumes_stored_command Reference.header 5100
                (Reference.robot 0 Reference.moving true (fun _ => 0.3%Q))))))
             Hids Hfresh) as (Hfl & _).
  rewrite Hfl. reflexivity.
Defined.
